(** * chemprop.features.utils: feature-file readers and writers

    A shallow embedding of [chemprop/features/utils.py] and of the parts of
    the Python runtime and of the libraries it calls ([os.path.splitext],
    [open], [csv.reader], [float], numpy, scipy.sparse, pandas, RDKit),
    followed by the properties of [save_features], [load_features] and
    [load_valid_atom_features].

    Conventions.
    - A Python [str] is a [string]: a text of code points below 256, each
      an [ascii] (so U+0085 and U+00A0 are characters, and a text with a
      character beyond U+00FF is outside the model); a path is a [string].
    - A call either returns a value or raises: [result A] is [Ok a] or
      [Raise e], with [e : exn] the Python exception.  Messages built by
      the source's own f-strings are exact; messages of exceptions raised
      inside a library are indicative.
    - The file system is a finite map from paths to decoded file contents.
      A path stands for the file it spells: the map does not resolve
      relative paths, [.], [..] or links, so two spellings of one file are
      two keys.  The properties below speak of one path, and of the path
      numpy derives from it by appending [.npz].
    - [print] writes to standard output only and is left out. *)

From Stdlib Require Import ZArith NArith List Ascii String Bool Lia.
From Stdlib Require Import Floats.SpecFloat.
From stdpp Require Import base option list strings gmap.

Local Open Scope string_scope.

(** ** Exceptions and results *)

Inductive exn : Type :=
| ValueError (msg : string)
| IndexError (msg : string)
| KeyError (msg : string)
| AttributeError (msg : string)
| TypeError (msg : string)
| AxisError (msg : string)
| UnboundLocalError (name : string)
| StopIteration
| EOFError (msg : string)
| FileNotFoundError (path : string)
| OSError (path : string)
| UnicodeDecodeError
| csv_Error (msg : string)
| UnpicklingError (msg : string).

Inductive result (A : Type) : Type :=
| Ok (a : A)
| Raise (e : exn).
Arguments Ok {A} a.
Arguments Raise {A} e.

#[global] Instance result_ret : MRet result := fun A a => Ok a.
#[global] Instance result_bind : MBind result := fun A B f m =>
  match m with
  | Ok a => f a
  | Raise e => Raise e
  end.
#[global] Instance result_fmap : FMap result := fun A B f m =>
  match m with
  | Ok a => Ok (f a)
  | Raise e => Raise e
  end.

Definition is_Ok {A} (r : result A) : bool :=
  match r with Ok _ => true | Raise _ => false end.

(** ** Strings: the [str] methods the module relies on *)

Module str.

(** [s[:n]] for [0 <= n]. *)
Fixpoint take (n : nat) (s : string) : string :=
  match n, s with
  | S n', String a s' => String a (take n' s')
  | _, _ => EmptyString
  end.

(** [s[n:]] for [0 <= n]. *)
Fixpoint drop (n : nat) (s : string) : string :=
  match n, s with
  | S n', String _ s' => drop n' s'
  | _, _ => s
  end.

(** [s[i:j]] for [0 <= i], [0 <= j]. *)
Definition slice (i j : Z) (s : string) : string :=
  take (Z.to_nat (j - i)) (drop (Z.to_nat i) s).

Fixpoint rfind_from (c : ascii) (s : string) (i last : Z) : Z :=
  match s with
  | EmptyString => last
  | String a s' => rfind_from c s' (i + 1) (if Ascii.eqb a c then i else last)
  end.

(** [s.rfind(c)] for a one-character [c]: the highest index of [c], or -1. *)
Definition rfind (c : ascii) (s : string) : Z := rfind_from c s 0 (-1).

(** [s.endswith(suffix)]. *)
Definition endswith (s suffix : string) : bool :=
  let n := String.length s in
  let k := String.length suffix in
  (k <=? n)%nat && String.eqb (drop (n - k) s) suffix.

(** [c in s] for a one-character [c]. *)
Fixpoint contains (c : ascii) (s : string) : bool :=
  match s with
  | EmptyString => false
  | String a s' => Ascii.eqb a c || contains c s'
  end.

(** [s.replace(c, '')] for a one-character [c]. *)
Fixpoint remove (c : ascii) (s : string) : string :=
  match s with
  | EmptyString => EmptyString
  | String a s' => if Ascii.eqb a c then remove c s' else String a (remove c s')
  end.

(** [cur] is the part of the current piece already read. *)
Fixpoint split_acc (c : ascii) (s : string) (cur : string) : list string :=
  match s with
  | EmptyString => [cur]
  | String a s' =>
      if Ascii.eqb a c then cur :: split_acc c s' EmptyString
      else split_acc c s' (cur +:+ String a EmptyString)
  end.

(** [s.split(c)] for a one-character separator [c]; never empty. *)
Definition split (c : ascii) (s : string) : list string :=
  split_acc c s EmptyString.

Definition lower_ascii (a : ascii) : ascii :=
  let n := nat_of_ascii a in
  if ((65 <=? n) && (n <=? 90))%nat then ascii_of_nat (n + 32) else a.

(** [s.lower()] on ASCII text. *)
Fixpoint lower (s : string) : string :=
  match s with
  | EmptyString => EmptyString
  | String a s' => String (lower_ascii a) (lower s')
  end.

End str.

(** ** [os.path.splitext] (POSIX flavour)

    [posixpath.splitext(p)] is [genericpath._splitext(p, '/', None, '.')]. *)

Module os.
Module path.

(** The [while filenameIndex < dotIndex] loop: [fuel] is the number of
    iterations left, [dotIndex - filenameIndex].  [Some] is the early
    [return p[:dotIndex], p[dotIndex:]], [None] is falling out of the
    loop. *)
Fixpoint skip_leading_dots (p : string) (dotIndex : Z) (fuel : nat)
    (filenameIndex : Z) : option (string * string) :=
  match fuel with
  | O => None
  | S fuel' =>
      if negb (String.eqb (str.slice filenameIndex (filenameIndex + 1) p) ".")
      then Some (str.take (Z.to_nat dotIndex) p, str.drop (Z.to_nat dotIndex) p)
      else skip_leading_dots p dotIndex fuel' (filenameIndex + 1)
  end.

Definition splitext (p : string) : string * string :=
  let sepIndex := str.rfind "/"%char p in
  let dotIndex := str.rfind "."%char p in
  if (sepIndex <? dotIndex)%Z then
    let filenameIndex := (sepIndex + 1)%Z in
    match skip_leading_dots p dotIndex (Z.to_nat (dotIndex - filenameIndex))
            filenameIndex with
    | Some r => r
    | None => (p, EmptyString)
    end
  else (p, EmptyString).

End path.
End os.

(** ** numpy: n-dimensional arrays

    An array is its shape and its elements in row-major (C) order.  The
    element type is a parameter; the module only moves elements around. *)

Module np.

Record ndarray (A : Type) : Type := mk_ndarray {
  shape : list nat;
  data : list A
}.
Arguments mk_ndarray {A} shape data.
Arguments shape {A} _.
Arguments data {A} _.

Definition ndim {A} (a : ndarray A) : nat := length (shape a).

Definition size_of (s : list nat) : nat := foldr Nat.mul 1 s.

(** Invariant of every array numpy builds. *)
Definition wf {A} (a : ndarray A) : Prop := length (data a) = size_of (shape a).

(** A 1-D array holding the elements of a Python list of scalars. *)
Definition array1 {A} (l : list A) : ndarray A := mk_ndarray [length l] l.

(** [np.array(l)] / [np.asanyarray(l)] for a Python list [l] of arrays:
    a new leading axis of length [len(l)].  The empty list gives the
    1-D array of shape [(0,)]; sub-arrays of different shapes give
    [ValueError] (numpy >= 1.24). *)
Definition array {A} (l : list (ndarray A)) : result (ndarray A) :=
  match l with
  | [] => Ok (mk_ndarray [0] [])
  | a :: _ =>
      if forallb (fun b => bool_decide (shape b = shape a)) l
      then Ok (mk_ndarray (length l :: shape a) (concat (map data l)))
      else Raise (ValueError
        "setting an array element with a sequence. The requested array has an inhomogeneous shape")
  end.

(** [np.squeeze(a)]: drop every axis of length one. *)
Definition squeeze {A} (a : ndarray A) : ndarray A :=
  mk_ndarray (filter (fun n => n ≠ 1) (shape a)) (data a).

(** [chunks m k l]: the first [k] consecutive blocks of [m] elements of [l]. *)
Fixpoint chunks {A} (m k : nat) (l : list A) : list (list A) :=
  match k with
  | O => []
  | S k' => take m l :: chunks m k' (drop m l)
  end.

(** [zip_blocks k bs]: [bs] holds, per input array, its list of blocks
    along axis 0; the result walks axis 0 and, at each position, lays the
    block of every array side by side. *)
Fixpoint zip_blocks {A} (k : nat) (bs : list (list (list A))) : list A :=
  match k with
  | O => []
  | S k' => concat (map (hd []) bs) ++ zip_blocks k' (map tail bs)
  end.

(** [np.stack(arrays, axis=1)]. *)
Definition stack_axis1 {A} (arrays : list (ndarray A)) : result (ndarray A) :=
  match arrays with
  | [] => Raise (ValueError "need at least one array to stack")
  | a :: _ =>
      if negb (forallb (fun b => bool_decide (shape b = shape a)) arrays)
      then Raise (ValueError "all input arrays must have the same shape")
      else
        match shape a with
        | [] => Raise (AxisError "axis 1 is out of bounds for array of dimension 1")
        | s0 :: rest =>
            let m := size_of rest in
            Ok (mk_ndarray (s0 :: length arrays :: rest)
                  (zip_blocks s0 (map (fun b => chunks m s0 (data b)) arrays)))
        end
  end.

(** [np.concatenate(arrays, axis=1)]. *)
Definition concatenate_axis1 {A} (arrays : list (ndarray A)) : result (ndarray A) :=
  match arrays with
  | [] => Raise (ValueError "need at least one array to concatenate")
  | a :: _ =>
      match shape a with
      | [] => Raise (ValueError "zero-dimensional arrays cannot be concatenated")
      | [_] => Raise (AxisError "axis 1 is out of bounds for array of dimension 1")
      | s0 :: _ :: rest =>
          if negb (forallb (fun b => bool_decide (ndim b = ndim a)) arrays)
          then Raise (ValueError
            "all the input arrays must have same number of dimensions")
          else if negb (forallb (fun b =>
                    bool_decide (hd 0 (shape b) = s0 ∧ drop 2 (shape b) = rest)) arrays)
          then Raise (ValueError
            "all the input array dimensions except for the concatenation axis must match exactly")
          else
            let width b := nth 1 (shape b) 0 in
            Ok (mk_ndarray (s0 :: sum_list (map width arrays) :: rest)
                  (zip_blocks s0
                     (map (fun b => chunks (width b * size_of rest) s0 (data b)) arrays)))
      end
  end.

(** [a[:n]] on the first axis, for [0 <= n]: at most [n] leading entries. *)
Definition slice_to {A} (n : nat) (a : ndarray A) : result (ndarray A) :=
  match shape a with
  | [] => Raise (IndexError "too many indices for array: array is 0-dimensional")
  | s0 :: rest =>
      Ok (mk_ndarray (Nat.min n s0 :: rest) (take (Nat.min n s0 * size_of rest) (data a)))
  end.

End np.

(** ** Python built-ins: [float(str)]

    A Python float is an IEEE 754 binary64 number, here a [spec_float] with
    precision 53 and maximal exponent 1024. *)

Module py.

Definition float64 : Type := spec_float.

Definition prec : Z := 53.
Definition emax : Z := 1024.

Definition is_digit (a : ascii) : bool :=
  let n := nat_of_ascii a in ((48 <=? n) && (n <=? 57))%nat.

Definition digit_val (a : ascii) : N := N.of_nat (nat_of_ascii a - 48).

(** [Py_ISSPACE]: tab, line feed, vertical tab, form feed, carriage
    return and space. *)
Definition is_space (a : ascii) : bool :=
  let n := nat_of_ascii a in (((9 <=? n) && (n <=? 13)) || (n =? 32))%nat.

(** [Py_UNICODE_ISSPACE] on the code points from 127 to 255: next line
    (U+0085) and no-break space (U+00A0). *)
Definition is_unicode_space (a : ascii) : bool :=
  let n := nat_of_ascii a in ((n =? 133) || (n =? 160))%nat.

(** [s.isascii()]. *)
Fixpoint isascii (s : string) : bool :=
  match s with
  | EmptyString => true
  | String a s' => (nat_of_ascii a <? 128)%nat && isascii s'
  end.

(** The loop of [_PyUnicode_TransformDecimalAndSpaceToASCII]: a character
    below 127 is kept, white space becomes a space, a decimal digit
    becomes its ASCII digit (no code point from 127 to 255 is one), and
    any other character is replaced by a question mark, which ends the
    text. *)
Fixpoint to_ascii (s : string) : string :=
  match s with
  | EmptyString => EmptyString
  | String a s' =>
      if (nat_of_ascii a <? 127)%nat then String a (to_ascii s')
      else if is_unicode_space a then String " " (to_ascii s')
      else String "?" EmptyString
  end.

(** [_PyUnicode_TransformDecimalAndSpaceToASCII]: an ASCII text is
    returned as it is. *)
Definition transform_decimal_and_space (s : string) : string :=
  if isascii s then s else to_ascii s.

Fixpoint lstrip (s : string) : string :=
  match s with
  | String a s' => if is_space a then lstrip s' else s
  | EmptyString => EmptyString
  end.

Definition strip (s : string) : string :=
  String.rev (lstrip (String.rev (lstrip s))).

(** Underscores may only sit between two digits; they are removed.
    [prev] is the character before the one being looked at. *)
Fixpoint drop_underscores (prev : option ascii) (s : string) : option string :=
  match s with
  | EmptyString =>
      match prev with
      | Some "_"%char => None
      | _ => Some EmptyString
      end
  | String a s' =>
      if Ascii.eqb a "_" then
        match prev with
        | Some p => if is_digit p then drop_underscores (Some a) s' else None
        | None => None
        end
      else
        match prev with
        | Some "_"%char =>
            if is_digit a then String a <$> drop_underscores (Some a) s' else None
        | _ => String a <$> drop_underscores (Some a) s'
        end
  end.

(** A maximal run of decimal digits: its value, its length, the rest. *)
Fixpoint digits (s : string) (acc : N) (cnt : nat) : N * nat * string :=
  match s with
  | String a s' =>
      if is_digit a then digits s' (10 * acc + digit_val a)%N (S cnt)
      else (acc, cnt, s)
  | EmptyString => (acc, cnt, s)
  end.

(** Optional sign: [true] for a minus. *)
Definition sign (s : string) : bool * string :=
  match s with
  | String "-"%char s' => (true, s')
  | String "+"%char s' => (false, s')
  | _ => (false, s)
  end.

(** Optional exponent part; a malformed exponent is not consumed. *)
Definition exponent (s : string) : Z * string :=
  match s with
  | String c s' =>
      if Ascii.eqb c "e" || Ascii.eqb c "E" then
        let '(neg, s1) := sign s' in
        let '(v, n, s2) := digits s1 0%N 0 in
        match n with
        | O => (0%Z, s)
        | S _ => ((if neg then - Z.of_N v else Z.of_N v)%Z, s2)
        end
      else (0%Z, s)
  | EmptyString => (0%Z, s)
  end.

(** The binary64 number nearest to [m * 10 ^ e] (ties to even). *)
Definition round_decimal (neg : bool) (m : N) (e : Z) : float64 :=
  match m with
  | N0 => S754_zero neg
  | Npos p =>
      if (0 <=? e)%Z then
        binary_round prec emax neg (p * Z.to_pos (10 ^ e))%positive 0
      else
        let den := (10 ^ (- e))%Z in
        let s := Z.max 0 (64 + Zdigits2 den - Zdigits2 (Zpos p)) in
        let num := (Zpos p * 2 ^ s)%Z in
        let q := (num / den)%Z in
        let r := (num mod den)%Z in
        let loc := if (r =? 0)%Z then loc_Exact
                   else loc_Inexact (Z.compare (2 * r) den) in
        binary_round_aux prec emax neg q (- s) loc
  end.

(** [float(s)] for a [str]: white space of any kind around the number is
    dropped (Unicode white space is first turned into spaces, then the
    ASCII blanks are stripped). *)
Definition float (s : string) : result float64 :=
  let err := Raise (ValueError ("could not convert string to float: '" +:+ s +:+ "'")) in
  match drop_underscores None (strip (transform_decimal_and_space s)) with
  | None => err
  | Some t =>
      let '(neg, body) := sign t in
      let word := str.lower body in
      if String.eqb word "inf" || String.eqb word "infinity" then Ok (S754_infinity neg)
      else if String.eqb word "nan" then Ok S754_nan
      else
        let '(i, ni, r1) := digits body 0%N 0 in
        let '(f, nf, r2) :=
          match r1 with
          | String "."%char r1' => digits r1' i 0
          | _ => (i, 0, r1)
          end in
        match ni + nf with
        | O => err
        | S _ =>
            let '(e, r3) := exponent r2 in
            match r3 with
            | EmptyString => Ok (round_decimal neg f (e - Z.of_nat nf))
            | _ => err
            end
        end
  end.

End py.

(** ** Text files: [open(path)] in text mode and line iteration *)

Module io.

Definition LF : ascii := "010"%char.
Definition CR : ascii := "013"%char.

(** Universal newlines ([newline=None]): CR LF and a lone CR read as LF. *)
Fixpoint universal_newlines (s : string) : string :=
  match s with
  | EmptyString => EmptyString
  | String a s' =>
      if Ascii.eqb a CR then
        match s' with
        | String b s'' =>
            if Ascii.eqb b LF then String LF (universal_newlines s'')
            else String LF (universal_newlines s')
        | EmptyString => String LF EmptyString
        end
      else String a (universal_newlines s')
  end.

Fixpoint readlines_acc (s cur : string) : list string :=
  match s with
  | EmptyString =>
      match cur with
      | EmptyString => []
      | _ => [cur]
      end
  | String a s' =>
      if Ascii.eqb a LF then (cur +:+ String LF EmptyString) :: readlines_acc s' EmptyString
      else readlines_acc s' (cur +:+ String a EmptyString)
  end.

(** Iterating a text file: the lines, each with its terminating LF. *)
Definition readlines (s : string) : list string := readlines_acc s EmptyString.

End io.

(** ** [csv.reader] with the default (excel) dialect

    Delimiter [,], quote character the double quote, [doublequote] on, no
    escape character, [skipinitialspace] off, not [strict].  The states and
    transitions are those of [parse_process_char] in [_csv.c]; the escape
    states need an escape character and are left out. *)

Module csv.

Inductive ParserState : Type :=
| START_RECORD
| START_FIELD
| IN_FIELD
| IN_QUOTED_FIELD
| QUOTE_IN_QUOTED_FIELD
| EAT_CRNL.

#[global] Instance ParserState_eq_dec : EqDecision ParserState.
Proof. solve_decision. Defined.

Record ReaderObj : Type := mk_reader {
  state : ParserState;
  fields : list string;      (* fields of the current record *)
  field : string;            (* the field being collected *)
  field_len : N
}.

Definition delimiter : ascii := ","%char.
Definition quotechar : ascii := "034"%char.
Definition field_limit : N := 131072.

Definition parse_reset : ReaderObj := mk_reader START_RECORD [] EmptyString 0.

Definition set_state (st : ParserState) (self : ReaderObj) : ReaderObj :=
  mk_reader st (fields self) (field self) (field_len self).

Definition parse_save_field (self : ReaderObj) : ReaderObj :=
  mk_reader (state self) (fields self ++ [field self]) EmptyString 0.

Definition parse_add_char (self : ReaderObj) (c : ascii) : result ReaderObj :=
  if (field_limit <=? field_len self)%N
  then Raise (csv_Error "field larger than field limit (131072)")
  else Ok (mk_reader (state self) (fields self)
             (field self +:+ String c EmptyString) (field_len self + 1)).

Definition is_newline (c : ascii) : bool := Ascii.eqb c io.LF || Ascii.eqb c io.CR.

(** The [START_FIELD] case; [c = None] is the end-of-line marker [EOL]. *)
Definition start_field (self : ReaderObj) (c : option ascii) : result ReaderObj :=
  match c with
  | None => Ok (set_state START_RECORD (parse_save_field self))
  | Some a =>
      if is_newline a then Ok (set_state EAT_CRNL (parse_save_field self))
      else if Ascii.eqb a quotechar then Ok (set_state IN_QUOTED_FIELD self)
      else if Ascii.eqb a delimiter then Ok (parse_save_field self)
      else set_state IN_FIELD <$> parse_add_char self a
  end.

Definition parse_process_char (self : ReaderObj) (c : option ascii) : result ReaderObj :=
  match state self with
  | START_RECORD =>
      match c with
      | None => Ok self
      | Some a =>
          if is_newline a then Ok (set_state EAT_CRNL self)
          else start_field (set_state START_FIELD self) c
      end
  | START_FIELD => start_field self c
  | IN_FIELD =>
      match c with
      | None => Ok (set_state START_RECORD (parse_save_field self))
      | Some a =>
          if is_newline a then Ok (set_state EAT_CRNL (parse_save_field self))
          else if Ascii.eqb a delimiter then Ok (set_state START_FIELD (parse_save_field self))
          else parse_add_char self a
      end
  | IN_QUOTED_FIELD =>
      match c with
      | None => Ok self
      | Some a =>
          if Ascii.eqb a quotechar then Ok (set_state QUOTE_IN_QUOTED_FIELD self)
          else parse_add_char self a
      end
  | QUOTE_IN_QUOTED_FIELD =>
      match c with
      | None => Ok (set_state START_RECORD (parse_save_field self))
      | Some a =>
          if Ascii.eqb a quotechar then set_state IN_QUOTED_FIELD <$> parse_add_char self a
          else if Ascii.eqb a delimiter then Ok (set_state START_FIELD (parse_save_field self))
          else if is_newline a then Ok (set_state EAT_CRNL (parse_save_field self))
          else set_state IN_FIELD <$> parse_add_char self a
      end
  | EAT_CRNL =>
      match c with
      | None => Ok (set_state START_RECORD self)
      | Some a =>
          if is_newline a then Ok self
          else Raise (csv_Error
            "new-line character seen in unquoted field - do you need to open the file with newline=''?")
      end
  end.

(** The characters of one line, in order. *)
Fixpoint process_chars (self : ReaderObj) (line : string) : result ReaderObj :=
  match line with
  | EmptyString => Ok self
  | String a line' => self' ← parse_process_char self (Some a); process_chars self' line'
  end.

(** One line of input: its characters, then [EOL]. *)
Definition process_line (self : ReaderObj) (line : string) : result ReaderObj :=
  self' ← process_chars self line; parse_process_char self' None.

(** Everything the reader yields when iterated to exhaustion: the records
    in order and, if the iteration ends in an exception rather than in
    [StopIteration], that exception.  [self] is the parser state at the
    start of [lines]; a record is complete when a line leaves the parser
    in [START_RECORD], and input ending inside a record yields what was
    collected. *)
Fixpoint read_all (self : ReaderObj) (lines : list string)
    : list (list string) * option exn :=
  match lines with
  | [] =>
      if (0 <? field_len self)%N || bool_decide (state self = IN_QUOTED_FIELD)
      then ([fields (parse_save_field self)], None)
      else ([], None)
  | line :: rest =>
      match process_line self line with
      | Raise e => ([], Some e)
      | Ok self' =>
          if bool_decide (state self' = START_RECORD) then
            let '(records, e) := read_all parse_reset rest in
            (fields self' :: records, e)
          else read_all self' rest
      end
  end.

Definition reader (lines : list string) : list (list string) * option exn :=
  read_all parse_reset lines.

End csv.

(** ** scipy.sparse matrices

    A sparse matrix in dictionary-of-keys form: its shape and the entries
    that are stored; every other entry is zero. *)

Module sparse.

Record spmatrix : Type := mk_spmatrix {
  nrows : nat;
  ncols : nat;
  entries : gmap (nat * nat) py.float64
}.

Definition entry (m : spmatrix) (i j : nat) : py.float64 :=
  default (S754_zero false) (entries m !! (i, j)).

(** [np.array(m.todense())]: the dense 2-D array. *)
Definition todense (m : spmatrix) : np.ndarray py.float64 :=
  np.mk_ndarray [nrows m; ncols m]
    (flat_map (fun i => map (entry m i) (seq 0 (ncols m))) (seq 0 (nrows m))).

End sparse.

(** ** pandas: the data-frame operations the module uses *)

Module pd.

(** Index labels and cells of a table read from an SD file: a missing
    value, a string, an integer, or an object of another class (the
    molecule of the [ROMol] column). *)
Inductive scalar : Type :=
| NaN
| Str (s : string)
| Int (z : Z)
| Obj.

#[global] Instance scalar_eq_dec : EqDecision scalar.
Proof. solve_decision. Defined.

(** Labels are dictionary keys in [load_valid_atom_features]. *)
#[global] Instance scalar_countable : Countable scalar :=
  inj_countable'
    (fun c => match c with
              | NaN => inl (inl ())
              | Str s => inl (inr s)
              | Int z => inr (inl z)
              | Obj => inr (inr ())
              end)
    (fun c => match c with
              | inl (inl _) => NaN
              | inl (inr s) => Str s
              | inr (inl z) => Int z
              | inr (inr _) => Obj
              end)
    (fun c => match c with NaN | Str _ | Int _ | Obj => eq_refl end).

(** A frame: row labels, column names, and the cells row by row. *)
Record DataFrame (C : Type) : Type := mk_frame {
  index : list scalar;
  columns : list string;
  values : list (list C)
}.
Arguments mk_frame {C} index columns values.
Arguments index {C} _.
Arguments columns {C} _.
Arguments values {C} _.

(** Every row has one cell per column and one label. *)
Definition wf {C} (df : DataFrame C) : Prop :=
  length (index df) = length (values df) ∧
  Forall (fun r => length r = length (columns df)) (values df).

(** [df.iloc[0, 0]]. *)
Definition iloc_0_0 {C} (df : DataFrame C) : result C :=
  match values df with
  | (c :: _) :: _ => Ok c
  | _ => Raise (IndexError "index 0 is out of bounds for axis 0 with size 0")
  end.

(** [df.iloc[0, :]]: the cells of the first row. *)
Definition iloc_0 {C} (df : DataFrame C) : result (list C) :=
  match values df with
  | r :: _ => Ok r
  | [] => Raise (IndexError "single positional indexer is out-of-bounds")
  end.

(** Keep the entries of [l] whose flag in [mask] is set. *)
Fixpoint select {A} (mask : list bool) (l : list A) : list A :=
  match mask, l with
  | b :: mask', x :: l' => if b then x :: select mask' l' else select mask' l'
  | _, _ => []
  end.

(** [df.iloc[:, mask]] for a boolean list with one flag per column. *)
Definition iloc_columns {C} (mask : list bool) (df : DataFrame C) : DataFrame C :=
  mk_frame (index df) (select mask (columns df)) (map (select mask) (values df)).

(** [df.drop(labels, axis=1)]: every label must name a column. *)
Definition drop_columns {C} (labels : list string) (df : DataFrame C)
    : result (DataFrame C) :=
  if forallb (fun l => bool_decide (l ∈ columns df)) labels
  then Ok (iloc_columns (map (fun c => bool_decide (c ∉ labels)) (columns df)) df)
  else Raise (KeyError "labels not found in axis").

(** The position of the first column called [name]. *)
Fixpoint position (name : string) (cols : list string) : option nat :=
  match cols with
  | [] => None
  | c :: cols' => if String.eqb c name then Some 0 else S <$> position name cols'
  end.

(** [df.set_index(name)] on a frame of scalars: the column becomes the
    index and leaves the table. *)
Definition set_index (name : string) (df : DataFrame scalar)
    : result (DataFrame scalar) :=
  match position name (columns df) with
  | None => Raise (KeyError ("None of ['" +:+ name +:+ "'] are in the columns"))
  | Some k =>
      let keep := map (fun c => negb (String.eqb c name)) (columns df) in
      Ok (mk_frame (map (fun r => nth k r NaN) (values df))
            (select keep (columns df)) (map (select keep) (values df)))
  end.

(** [df.index.duplicated()]: a label is a duplicate when it occurred
    before. *)
Fixpoint duplicated (seen labels : list scalar) : list bool :=
  match labels with
  | [] => []
  | l :: labels' => bool_decide (l ∈ seen) :: duplicated (l :: seen) labels'
  end.

(** [df[~df.index.duplicated()]]: rows selected by a boolean mask. *)
Definition drop_duplicated {C} (df : DataFrame C) : DataFrame C :=
  let keep := map negb (duplicated [] (index df)) in
  mk_frame (select keep (index df)) (columns df) (select keep (values df)).

(** The row labelled [l], if any (labels are unique when this is used). *)
Fixpoint lookup_row {C} (l : scalar) (labels : list scalar) (rows : list (list C))
    : option (list C) :=
  match labels, rows with
  | l' :: labels', r :: rows' =>
      if bool_decide (l' = l) then Some r else lookup_row l labels' rows'
  | _, _ => None
  end.

(** [df.reindex(labels)]: one row per requested label, in that order;
    a label the frame does not have gets a row of missing values. *)
Definition reindex (labels : list string) (df : DataFrame scalar) : DataFrame scalar :=
  mk_frame (map Str labels) (columns df)
    (map (fun l => default (map (fun _ => NaN) (columns df))
                     (lookup_row (Str l) (index df) (values df))) labels).

Definition isnull (c : scalar) : bool :=
  match c with NaN => true | _ => false end.

(** [df.isnull().any().any()]. *)
Definition isnull_any_any (df : DataFrame scalar) : bool :=
  existsb (existsb isnull) (values df).

(** The table seen column by column ([n] columns), and back. *)
Fixpoint transpose {A} (n : nat) (rows : list (list A)) : list (list A) :=
  match n with
  | O => []
  | S n' => omap head rows :: transpose n' (map tail rows)
  end.

(** [df.applymap(f)]: [f] on every cell, one column after the other. *)
Definition applymap {C D} (f : C → result D) (df : DataFrame C) : result (DataFrame D) :=
  cols ← mapM (mapM f) (transpose (length (columns df)) (values df));
  Ok (mk_frame (index df) (columns df) (transpose (length (values df)) cols)).

(** What [df.apply(f, axis=1)] evaluates to: a series with one entry per
    row, or a frame. *)
Inductive applied (C R : Type) : Type :=
| Series (entries : list R)
| Frame (df : DataFrame C).
Arguments Series {C R} entries.
Arguments Frame {C R} df.

Definition is_empty {C} (df : DataFrame C) : bool :=
  match values df, columns df with
  | [], _ | _, [] => true
  | _, _ => false
  end.

(** [df.apply(f, axis=1)] for an [f] that returns an array: [f] is called
    on each row, with the row's label as its [name], in order, and the
    results form a series.  On a frame without rows or without columns
    pandas only probes [f] on a dummy row, swallows the exception that
    both lambdas of this module raise there, and returns a copy of the
    frame. *)
Definition apply_rows {C R} (f : scalar → list C → result R) (df : DataFrame C)
    : result (applied C R) :=
  if is_empty df then Ok (Frame df)
  else Series <$> mapM (fun '(name, r) => f name r) (zip (index df) (values df)).

(** [df.apply(f, axis=1)] for an [f] that returns the row as a series:
    the results are assembled into a frame with the same labels.  On a
    frame without rows or without columns the probe of [truncate_arrays]
    returns a series or raises, and either way pandas returns a copy of
    the frame. *)
Definition apply_rows_frame {C} (f : scalar → list C → result (list C))
    (df : DataFrame C) : result (DataFrame C) :=
  if is_empty df then Ok df
  else mk_frame (index df) (columns df) <$>
         mapM (fun '(name, r) => f name r) (zip (index df) (values df)).

(** [.tolist()]: defined on a series, not on a frame. *)
Definition tolist {C R} (a : applied C R) : result (list R) :=
  match a with
  | Series l => Ok l
  | Frame _ => Raise (AttributeError "'DataFrame' object has no attribute 'tolist'")
  end.

End pd.

(** ** The chemistry toolkit

    RDKit is used for one thing: the number of atoms of the molecule a
    SMILES string denotes.  [MolFromSmiles] returns [None] on a string it
    cannot parse. *)

Class Chem : Type := {
  Mol : Type;
  MolFromSmiles : string → option Mol;
  GetNumAtoms : Mol → nat
}.

(** ** Files *)

(** An object stored with [pickle]: the two kinds the module reads. *)
Inductive pyobj : Type :=
| PySparseList (l : list sparse.spmatrix)
| PyDataFrame (df : pd.DataFrame (np.ndarray py.float64)).

(** Decoded contents of a file.  An SD file is kept as its text together
    with the table [PandasTools.LoadSDF] builds from it (one row per
    molecule, one column per property, plus [ID] and [ROMol]). *)
Inductive file : Type :=
| NpzFile (members : gmap string (np.ndarray py.float64))
| NpyFile (a : np.ndarray py.float64)
| TextFile (content : string)
| PickleFile (obj : pyobj)
| SdfFile (content : string) (table : pd.DataFrame pd.scalar).

Record filesystem : Type := mk_fs {
  files : gmap string file;
  writable : string → bool
}.

(** What a call of this module can return. *)
Inductive value : Type :=
| Array (a : np.ndarray py.float64)
| Archive (members : gmap string (np.ndarray py.float64)).

(** ** Reading and writing files *)

Definition read_file (fs : filesystem) (path : string) : result file :=
  match files fs !! path with
  | Some f => Ok f
  | None => Raise (FileNotFoundError path)
  end.

(** [np.load(path)] with the default [allow_pickle=False]. *)
Definition np_load (fs : filesystem) (path : string) : result value :=
  f ← read_file fs path;
  match f with
  | NpzFile members => Ok (Archive members)
  | NpyFile a => Ok (Array a)
  | TextFile EmptyString | SdfFile EmptyString _ => Raise (EOFError "No data left in file")
  | _ => Raise (ValueError
      "Cannot load file containing pickled data when allow_pickle=False")
  end.

(** [v[key]] on what [np.load] returned. *)
Definition getitem (v : value) (key : string) : result value :=
  match v with
  | Archive members =>
      match members !! key with
      | Some a => Ok (Array a)
      | None => Raise (KeyError (key +:+ " is not a file in the archive"))
      end
  | Array _ => Raise (IndexError
      "only integers, slices, ellipsis, numpy.newaxis and integer or boolean arrays are valid indices")
  end.

(** [open(path)] in text mode, read to the end. *)
Definition open_text (fs : filesystem) (path : string) : result string :=
  f ← read_file fs path;
  match f with
  | TextFile content | SdfFile content _ => Ok (io.universal_newlines content)
  | _ => Raise UnicodeDecodeError
  end.

(** [pickle.load(f)] / [pd.read_pickle(path)]. *)
Definition pickle_load (fs : filesystem) (path : string) : result pyobj :=
  f ← read_file fs path;
  match f with
  | PickleFile obj => Ok obj
  | TextFile EmptyString | SdfFile EmptyString _ => Raise (EOFError "Ran out of input")
  | _ => Raise (UnpicklingError "invalid load key")
  end.

(** [PandasTools.LoadSDF(path)]: the table of the molecules in the file; a
    file that holds no molecule record gives the empty table. *)
Definition LoadSDF (fs : filesystem) (path : string) : result (pd.DataFrame pd.scalar) :=
  f ← read_file fs path;
  match f with
  | SdfFile _ table => Ok table
  | _ => Ok (pd.mk_frame [] [] [])
  end.

(** [np.savez_compressed(path, features=features)].  The archive is written
    to [path], or to [path + '.npz'] when [path] does not end in [.npz];
    the file is created before the list is converted, so a conversion
    error leaves a file without content. *)
Definition np_savez_compressed (fs : filesystem) (path : string)
    (features : list (np.ndarray py.float64)) : result unit * filesystem :=
  let file := if str.endswith path ".npz" then path else path +:+ ".npz" in
  if negb (writable fs file) then (Raise (OSError file), fs)
  else
    match np.array features with
    | Raise e => (Raise e, mk_fs (<[file := TextFile EmptyString]> (files fs)) (writable fs))
    | Ok val =>
        (Ok tt, mk_fs (<[file := NpzFile {["features" := val]}]> (files fs)) (writable fs))
    end.

(** ** The module: [chemprop/features/utils.py] *)

Definition save_features (fs : filesystem) (path : string)
    (features : list (np.ndarray py.float64)) : result unit * filesystem :=
  np_savez_compressed fs path features.

Definition load_features (fs : filesystem) (path : string) : result value :=
  let extension := snd (os.path.splitext path) in
  if String.eqb extension ".npz" then
    v ← np_load fs path; getitem v "features"
  else if String.eqb extension ".npy" then
    np_load fs path
  else if bool_decide (extension ∈ [".csv"; ".txt"]) then
    f ← open_text fs path;
    let '(records, err) := csv.reader (io.readlines f) in
    (* next(reader)  -- skip header *)
    match records, err with
    | [], None => Raise StopIteration
    | [], Some e => Raise e
    | _ :: rows, _ =>
        floats ← mapM (mapM py.float) rows;
        match err with
        | Some e => Raise e
        | None => Array <$> np.array (map np.array1 floats)
        end
    end
  else if bool_decide (extension ∈ [".pkl"; ".pckl"; ".pickle"]) then
    obj ← pickle_load fs path;
    match obj with
    | PySparseList l =>
        Array <$> np.array (map (fun feat => np.squeeze (sparse.todense feat)) l)
    | PyDataFrame df =>
        match pd.columns df with
        | [] => Array <$> np.array []
        | _ :: _ => Raise (AttributeError "'str' object has no attribute 'todense'")
        end
    end
  else
    Raise (ValueError ("Features path extension " +:+ extension +:+ " not supported.")).

Section AtomFeatures.
Context `{Chem}.

(** [Chem.MolFromSmiles(x).GetNumAtoms()] for an index label [x]. *)
Definition num_atoms_of (x : pd.scalar) : result nat :=
  match x with
  | pd.Str s =>
      match MolFromSmiles s with
      | Some m => Ok (GetNumAtoms m)
      | None => Raise (AttributeError "'NoneType' object has no attribute 'GetNumAtoms'")
      end
  | _ => Raise (TypeError "No registered converter was able to produce a C++ rvalue of type std::string")
  end.

(** The dict comprehension [{x: ... for x in index}]: a later entry for
    the same key replaces the earlier one. *)
Fixpoint num_atoms_dict (labels : list pd.scalar) (d : gmap pd.scalar nat)
    : result (gmap pd.scalar nat) :=
  match labels with
  | [] => Ok d
  | x :: labels' => n ← num_atoms_of x; num_atoms_dict labels' (<[x := n]> d)
  end.

(** The column test of the [.sdf] branch:
    [lambda x: isinstance(x, str) and ',' in x]. *)
Definition is_descriptor (x : pd.scalar) : bool :=
  match x with
  | pd.Str s => str.contains "," s
  | _ => false
  end.

(** The cell parser of the [.sdf] branch:
    [np.array(x.replace('\r', '').replace('\n', '').split(',')).astype(float)]. *)
Definition parse_cell (x : pd.scalar) : result (np.ndarray py.float64) :=
  match x with
  | pd.Str s =>
      np.array1 <$> mapM py.float (str.split "," (str.remove io.LF (str.remove io.CR s)))
  | pd.NaN => Raise (AttributeError "'float' object has no attribute 'replace'")
  | pd.Int _ => Raise (AttributeError "'int' object has no attribute 'replace'")
  | pd.Obj => Raise (AttributeError "'Mol' object has no attribute 'replace'")
  end.

(** [truncate_arrays(r)]: [r.apply(lambda x: x[:num_atoms[r.name]])]. *)
Definition truncate_arrays (num_atoms : gmap pd.scalar nat) (name : pd.scalar)
    (r : list (np.ndarray py.float64)) : result (list (np.ndarray py.float64)) :=
  mapM (fun x =>
          match num_atoms !! name with
          | Some n => np.slice_to n x
          | None => Raise (KeyError "name")
          end) r.

Definition load_valid_atom_features (fs : filesystem) (path : string)
    (smiles : list string) : result (list (np.ndarray py.float64)) :=
  let extension := snd (os.path.splitext path) in
  (* [features] is a local variable: [None] while it is unbound *)
  features ←
    (if bool_decide (extension ∈ [".pkl"; ".pckl"; ".pickle"]) then
       obj ← pickle_load fs path;
       match obj with
       | PyDataFrame features_df =>
           c ← pd.iloc_0_0 features_df;
           if (np.ndim c =? 1)%nat then
             a ← pd.apply_rows (fun _ x => np.stack_axis1 x) features_df;
             Some <$> pd.tolist a
           else if (np.ndim c =? 2)%nat then
             a ← pd.apply_rows (fun _ x => np.concatenate_axis1 x) features_df;
             Some <$> pd.tolist a
           else
             Raise (ValueError ("Atom descriptors input " +:+ path +:+ " format not supported"))
       | PySparseList _ => Raise (AttributeError "'list' object has no attribute 'iloc'")
       end
     else Ok None);
  features ←
    (if String.eqb extension ".sdf" then
       t ← LoadSDF fs path;
       t ← pd.drop_columns ["ID"; "ROMol"] t;
       features_df ← pd.set_index "SMILES" t;
       let features_df := pd.drop_duplicated features_df in
       (* locate atomic descriptors columns *)
       first ← pd.iloc_0 features_df;
       let features_df := pd.iloc_columns (map is_descriptor first) features_df in
       let features_df := pd.reindex smiles features_df in
       if pd.isnull_any_any features_df then
         Raise (ValueError "Invalid custom atomic descriptors file, Nan found in data")
       else
         features_df ← pd.applymap parse_cell features_df;
         (* Truncate by number of atoms *)
         num_atoms ← num_atoms_dict (pd.index features_df) ∅;
         features_df ← pd.apply_rows_frame (truncate_arrays num_atoms) features_df;
         a ← pd.apply_rows (fun _ x => np.stack_axis1 x) features_df;
         Some <$> pd.tolist a
     else Ok features);
  match features with
  | Some l => Ok l
  | None => Raise (UnboundLocalError "features")
  end.

End AtomFeatures.

(** * Specification vocabulary *)

(** ** Extensions *)

Definition feature_extensions : list string :=
  [".npz"; ".npy"; ".csv"; ".txt"; ".pkl"; ".pckl"; ".pickle"].

Definition pickle_extensions : list string := [".pkl"; ".pckl"; ".pickle"].

Definition atom_feature_extensions : list string := [".pkl"; ".pckl"; ".pickle"; ".sdf"].

(** ** Delimited text *)

(** The plain reading of a line of delimited text: the line without its
    terminator, cut at every comma; an empty line has no field. *)
Definition csv_fields (line : string) : list string :=
  match str.remove io.LF line with
  | EmptyString => []
  | body => str.split "," body
  end.

Fixpoint all_chars (P : ascii → bool) (s : string) : bool :=
  match s with
  | EmptyString => true
  | String a s' => P a && all_chars P s'
  end.

(** Neither a line break nor a quote. *)
Definition plain (a : ascii) : bool :=
  negb (csv.is_newline a) && negb (Ascii.eqb a csv.quotechar).

(** Neither a carriage return nor a quote. *)
Definition tame (a : ascii) : bool :=
  negb (Ascii.eqb a io.CR) && negb (Ascii.eqb a csv.quotechar).

Definition unquoted (a : ascii) : bool := negb (Ascii.eqb a csv.quotechar).

(** A line as the file iterator hands it out: plain text, with or without
    the terminating line feed. *)
Definition line_ok (l : string) : Prop :=
  ∃ body, all_chars plain body = true ∧
          (l = body ∨ l = body +:+ String io.LF EmptyString).

(** A text of lines, each ended by a line feed. *)
Definition unlines (l : list string) : string :=
  foldr (fun line rest => line +:+ String io.LF rest) EmptyString l.

(** The reading of a delimited text file in the words of the
    specification: the first line is skipped as a header and every
    remaining line is parsed as comma-separated floats, one row each. *)
Definition line_by_line (content : string) : result value :=
  match io.readlines (io.universal_newlines content) with
  | [] => Raise StopIteration
  | _ :: rest =>
      floats ← mapM (mapM py.float) (map csv_fields rest);
      Array <$> np.array (map np.array1 floats)
  end.

(** ** Per-atom vectors *)

(** A 1-D array of length [L]. *)
Definition vector {A} (L : nat) (c : np.ndarray A) : Prop :=
  np.shape c = [L] ∧ length (np.data c) = L.

(** The 2-D array with one column per vector of [row]: entry (i, j) is
    entry i of vector j. *)
Definition column_stack {A} (L : nat) (row : list (np.ndarray A))
    : np.ndarray A :=
  np.mk_ndarray [L; length row]
    (flat_map (fun i => omap (fun c => np.data c !! i) row) (seq 0 L)).

(** Rows of vectors; the vectors of row k have length [lens !! k]. *)
Definition rows_of_vectors {A} (lens : list nat) (rows : list (list (np.ndarray A)))
    : Prop :=
  Forall2 (fun L r => r ≠ [] ∧ Forall (vector L) r) lens rows.

(** [v[:n]] for a vector [v]. *)
Definition truncated {A} (n : nat) (v : np.ndarray A) : np.ndarray A :=
  np.array1 (take n (np.data v)).

(** [counts] lists the atom counts of the molecules [smiles] denote. *)
Definition atom_counts `{Chem} (smiles : list string) (counts : list nat) : Prop :=
  Forall2 (fun s n => ∃ m, MolFromSmiles s = Some m ∧ GetNumAtoms m = n) smiles counts.

(** ** The table of the structured-data-file branch *)

(** Lines 81 to 86 of the source: the table of descriptor columns, indexed
    by SMILES, before it is reindexed. *)
Definition descriptor_columns (t : pd.DataFrame pd.scalar)
    : result (pd.DataFrame pd.scalar) :=
  t ← pd.drop_columns ["ID"; "ROMol"] t;
  features_df ← pd.set_index "SMILES" t;
  let features_df := pd.drop_duplicated features_df in
  first ← pd.iloc_0 features_df;
  Ok (pd.iloc_columns (map is_descriptor first) features_df).

(** What can be missing once the table is reindexed to [smiles]: the row
    of a requested identifier, or a value in the row of one. *)
Inductive missing_value (smiles : list string) (sel : pd.DataFrame pd.scalar) : Prop :=
| missing_row s :
    s ∈ smiles → pd.Str s ∉ pd.index sel → pd.columns sel ≠ [] →
    missing_value smiles sel
| missing_cell s r :
    s ∈ smiles →
    pd.lookup_row (pd.Str s) (pd.index sel) (pd.values sel) = Some r →
    pd.NaN ∈ r →
    missing_value smiles sel.

(** ** Vocabulary of the further properties *)

Definition no_CR (a : ascii) : bool := negb (Ascii.eqb a io.CR).

(** The text [s] with every line feed written as CR LF. *)
Fixpoint crlf (s : string) : string :=
  match s with
  | EmptyString => EmptyString
  | String a s' =>
      if Ascii.eqb a io.LF then String io.CR (String io.LF (crlf s'))
      else String a (crlf s')
  end.

(** Row [i] of a 2-D array: its [i]-th run of as many entries as the
    array has columns. *)
Definition row_of {A} (i : nat) (b : np.ndarray A) : list A :=
  let w := nth 1 (np.shape b) 0 in take w (drop (i * w) (np.data b)).

(** The 2-D array whose row [i] is row [i] of every block of [row], side
    by side. *)
Definition side_by_side {A} (n : nat) (row : list (np.ndarray A)) : np.ndarray A :=
  np.mk_ndarray [n; sum_list (map (fun b => nth 1 (np.shape b) 0) row)]
    (flat_map (fun i => flat_map (row_of i) row) (seq 0 n)).

(** Rows of 2-D blocks; the blocks of row k have [ns !! k] rows each. *)
Definition rows_of_matrices {A} (ns : list nat) (rows : list (list (np.ndarray A)))
    : Prop :=
  Forall2 (fun n r => r ≠ [] ∧ Forall (fun c => ∃ w, np.shape c = [n; w]) r) ns rows.



(** Lines 88 to 103 of the source: from the table of descriptor columns to
    the list of arrays. *)
Definition descriptors_of `{Chem} (smiles : list string) (sel : pd.DataFrame pd.scalar)
    : result (list (np.ndarray py.float64)) :=
  let features_df := pd.reindex smiles sel in
  if pd.isnull_any_any features_df then
    Raise (ValueError "Invalid custom atomic descriptors file, Nan found in data")
  else
    features_df ← pd.applymap parse_cell features_df;
    num_atoms ← num_atoms_dict (pd.index features_df) ∅;
    features_df ← pd.apply_rows_frame (truncate_arrays num_atoms) features_df;
    a ← pd.apply_rows (fun _ x => np.stack_axis1 x) features_df;
    pd.tolist a.

(** * Fixtures *)

(** No file yet, every path writable. *)
Definition empty_fs : filesystem := mk_fs ∅ (fun _ => true).

(** A file system holding one file. *)
Definition single_fs (path : string) (f : file) : filesystem :=
  mk_fs {[path := f]} (fun _ => true).

(** A toolkit for the examples: it parses methane, ethane and ethanol and
    nothing else.  It stands for RDKit on these three identifiers and on
    strings that are no SMILES (such as [N#], a bond without its second
    atom); the examples use no other identifier. *)
#[local] Instance toy_Chem : Chem := {|
  Mol := nat;
  MolFromSmiles s :=
    if String.eqb s "C" then Some 1
    else if String.eqb s "CC" then Some 2
    else if String.eqb s "CCO" then Some 3
    else None;
  GetNumAtoms m := m
|}.

(** The float of a small natural number, [float(n)]. *)
Definition f64 (n : nat) : py.float64 :=
  binary_normalize py.prec py.emax (Z.of_nat n) 0 false.

(** The 1-D array of the floats of [l]. *)
Definition vec (l : list nat) : np.ndarray py.float64 := np.array1 (map f64 l).

(** Two sparse 1 x 1 matrices, as a feature of size one is stored. *)
Definition unit_features : list sparse.spmatrix :=
  [sparse.mk_spmatrix 1 1 {[(0, 0) := f64 5]}; sparse.mk_spmatrix 1 1 ∅].

(** A pickled table of two molecules and two descriptor columns; every
    cell is a vector with one entry per atom (three atoms). *)
Definition atom_table_3 : pd.DataFrame (np.ndarray py.float64) :=
  pd.mk_frame [pd.Int 0; pd.Int 1] ["charge"; "radius"]
    [[vec [1; 2; 3]; vec [4; 5; 6]];
     [vec [7; 8; 9]; vec [10; 11; 12]]].

(** A pickled table whose second row holds vectors of another length. *)
Definition ragged_table : pd.DataFrame (np.ndarray py.float64) :=
  pd.mk_frame [pd.Int 0; pd.Int 1] ["charge"] [[vec [1; 2; 3]]; [vec [4; 5]]].

(** An SD file of one molecule whose only property holds a single number:
    no column passes the descriptor test. *)
Definition scalar_property_table : pd.DataFrame pd.scalar :=
  pd.mk_frame [pd.Int 0] ["logp"; "SMILES"; "ID"; "ROMol"]
    [[pd.Str "0.5"; pd.Str "C"; pd.Str "methane"; pd.Obj]].

(** An SD file of two molecules with two per-atom descriptor columns; the
    vectors of methane are longer than its one atom, those of ethanol
    shorter than its three atoms. *)
Definition descriptor_table : pd.DataFrame pd.scalar :=
  pd.mk_frame [pd.Int 0; pd.Int 1] ["charge"; "SMILES"; "radius"; "ID"; "ROMol"]
    [[pd.Str "1,2,3"; pd.Str "C"; pd.Str "4,5,6"; pd.Str "methane"; pd.Obj];
     [pd.Str "7,8"; pd.Str "CCO"; pd.Str "9,10"; pd.Str "ethanol"; pd.Obj]].

(** Its descriptor columns, indexed by SMILES. *)
Definition descriptor_columns_of_table : pd.DataFrame pd.scalar :=
  pd.mk_frame [pd.Str "C"; pd.Str "CCO"] ["charge"; "radius"]
    [[pd.Str "1,2,3"; pd.Str "4,5,6"]; [pd.Str "7,8"; pd.Str "9,10"]].

(** The same, every cell parsed. *)
Definition parsed_descriptor_table : pd.DataFrame (np.ndarray py.float64) :=
  pd.mk_frame [pd.Str "C"; pd.Str "CCO"] ["charge"; "radius"]
    [[vec [1; 2; 3]; vec [4; 5; 6]]; [vec [7; 8]; vec [9; 10]]].

(** * Properties *)

(** ** Extension dispatch *)

(** Closed decidable facts, by evaluation. *)
Ltac by_decide := apply (bool_decide_unpack _); vm_compute; exact I.

Lemma eqb_false_of_not_elem (x y : string) (l : list string) :
  x ∉ l → y ∈ l → String.eqb x y = false.
Proof.
  intros Hx Hy. apply String.eqb_neq. intros ->. contradiction.
Qed.

Lemma bool_decide_sub_false (x : string) (l l' : list string) :
  x ∉ l → l' ⊆ l → bool_decide (x ∈ l') = false.
Proof.
  intros Hx Hsub. apply bool_decide_eq_false. intros Hin. apply Hx, Hsub, Hin.
Qed.

(** The final [else] of [load_features]. *)
Lemma load_features_else (fs : filesystem) (path : string) :
  snd (os.path.splitext path) ∉ feature_extensions →
  load_features fs path =
    Raise (ValueError ("Features path extension " +:+ snd (os.path.splitext path)
                         +:+ " not supported.")).
Proof.
  intros Hext. unfold load_features.
  rewrite (eqb_false_of_not_elem _ ".npz" _ Hext) by by_decide.
  rewrite (eqb_false_of_not_elem _ ".npy" _ Hext) by by_decide.
  rewrite (bool_decide_sub_false _ _ [".csv"; ".txt"] Hext) by by_decide.
  rewrite (bool_decide_sub_false _ _ [".pkl"; ".pckl"; ".pickle"] Hext) by by_decide.
  reflexivity.
Qed.

Lemma lower_fixes_feature_extensions (e : string) :
  e ∈ feature_extensions → str.lower e = e.
Proof.
  unfold feature_extensions. intros He.
  repeat (apply elem_of_cons in He as [-> | He]; [reflexivity |]).
  by apply elem_of_nil in He.
Qed.

(** *** What [splitext] returns for a path that ends in a given extension *)

Lemma append_cons (a : ascii) (s t : string) :
  String a s +:+ t = String a (s +:+ t).
Proof. reflexivity. Qed.

Lemma take_drop (n : nat) (s : string) : str.take n s +:+ str.drop n s = s.
Proof.
  induction n as [| n IH] in s |- *; destruct s as [| a s]; try done.
  simpl. by rewrite append_cons, IH.
Qed.

Lemma drop_app_length (q t : string) : str.drop (String.length q) (q +:+ t) = t.
Proof. induction q as [| a q IH]; [by destruct t | exact IH]. Qed.

Lemma endswith_split (s suffix : string) :
  str.endswith s suffix = true → ∃ q, s = q +:+ suffix.
Proof.
  unfold str.endswith. intros [_ Heq%String.eqb_eq]%andb_true_iff.
  exists (str.take (String.length s - String.length suffix) s).
  rewrite <- Heq at 2. by rewrite take_drop.
Qed.

Lemma rfind_from_absent (c : ascii) (t : string) (i last : Z) :
  str.contains c t = false → str.rfind_from c t i last = last.
Proof.
  induction t as [| a t IH] in i |- *; simpl; [done |].
  intros [-> Ht]%orb_false_iff. by apply IH.
Qed.

(** The last occurrence of [c] is found. *)
Lemma rfind_from_last (c : ascii) (q t : string) (i last : Z) :
  str.contains c t = false →
  str.rfind_from c (q +:+ String c t) i last = (i + Z.of_nat (String.length q))%Z.
Proof.
  intros Ht. induction q as [| a q IH] in i, last |- *.
  - change (str.rfind_from c (String c t) i last = (i + 0)%Z). simpl.
    rewrite Ascii.eqb_refl, (rfind_from_absent c t _ _ Ht). lia.
  - rewrite append_cons. simpl str.rfind_from. rewrite IH.
    simpl String.length. lia.
Qed.

Lemma skip_leading_dots_Some (p : string) (dotIndex : Z) (fuel : nat)
    (filenameIndex : Z) (r : string * string) :
  os.path.skip_leading_dots p dotIndex fuel filenameIndex = Some r →
  r = (str.take (Z.to_nat dotIndex) p, str.drop (Z.to_nat dotIndex) p).
Proof.
  induction fuel as [| fuel IH] in filenameIndex |- *; simpl; [done |].
  case_match; [by intros [= <-] | apply IH].
Qed.

(** The extension is empty or starts at the last dot. *)
Lemma splitext_ends_with (q t : string) :
  str.contains "." t = false →
  snd (os.path.splitext (q +:+ String "." t)) = EmptyString ∨
  snd (os.path.splitext (q +:+ String "." t)) = String "." t.
Proof.
  intros Ht.
  assert (str.rfind "." (q +:+ String "." t) = Z.of_nat (String.length q)) as Hdot.
  { unfold str.rfind. rewrite (rfind_from_last "." q t 0 (-1) Ht). lia. }
  unfold os.path.splitext. cbv zeta. rewrite !Hdot.
  case_match; [| by left].
  destruct (os.path.skip_leading_dots _ _ _ _) as [r |] eqn:Hr; [| by left].
  apply skip_leading_dots_Some in Hr as ->. right. simpl.
  rewrite Nat2Z.id. apply drop_app_length.
Qed.

(** C3. A path whose extension is none of [.npz], [.npy], [.csv], [.txt],
    [.pkl], [.pckl], [.pickle] makes [load_features] raise [ValueError]
    with the message "Features path extension <ext> not supported.", which
    names the extension; this holds whatever the file system contains.
    In particular every path that ends in [.xyz] fails this way: its
    extension is [.xyz], or empty when the name is just [.xyz]. *)
Theorem load_features_unsupported_extension (fs : filesystem) (path : string) :
  let ext := snd (os.path.splitext path) in
  (ext ∉ feature_extensions →
   load_features fs path =
     Raise (ValueError ("Features path extension " +:+ ext +:+ " not supported."))) ∧
  (str.endswith path ".xyz" = true →
   (ext = ".xyz" ∨ ext = EmptyString) ∧
   load_features fs path =
     Raise (ValueError ("Features path extension " +:+ ext +:+ " not supported."))).
Proof.
  intros ext. split; [apply load_features_else |].
  intros [q ->]%endswith_split.
  assert (ext = ".xyz" ∨ ext = EmptyString) as Hext.
  { destruct (splitext_ends_with q "xyz" eq_refl) as [He | He]; [by right | by left]. }
  split; [exact Hext |]. apply load_features_else. fold ext.
  destruct Hext as [-> | ->]; by_decide.
Qed.

Lemma load_features_unsupported_extension_xyz :
  (snd (os.path.splitext "mol.xyz") ∉ feature_extensions) ∧
  str.endswith "mol.xyz" ".xyz" = true ∧
  load_features empty_fs "mol.xyz" =
    Raise (ValueError "Features path extension .xyz not supported.") ∧
  load_features empty_fs "data/.xyz" =
    Raise (ValueError "Features path extension  not supported.").
Proof.
  split; [by_decide |]. split; [reflexivity |]. split.
  - apply (proj1 (load_features_unsupported_extension empty_fs "mol.xyz")). by_decide.
  - apply (proj2 (load_features_unsupported_extension empty_fs "data/.xyz")). reflexivity.
Defined.

(** C10. Extension dispatch in [load_features] is case-sensitive: when the
    extension of the path is not itself a supported one but becomes one
    once lower-cased ([.CSV], [.NPZ], [.Npy], ...), the call raises the
    unsupported-extension [ValueError] naming the extension as written,
    for every file system: no file is read. *)
Theorem load_features_case_sensitive (fs : filesystem) (path ext : string) :
  snd (os.path.splitext path) = ext →
  str.lower ext ∈ feature_extensions →
  ext ≠ str.lower ext →
  load_features fs path =
    Raise (ValueError ("Features path extension " +:+ ext +:+ " not supported.")).
Proof.
  intros <- Hlow Hne. apply load_features_else.
  intros Hin. apply Hne. symmetry. by apply lower_fixes_feature_extensions.
Qed.

Lemma load_features_case_sensitive_CSV :
  snd (os.path.splitext "data/feats.CSV") = ".CSV" ∧
  str.lower ".CSV" ∈ feature_extensions ∧
  ".CSV" ≠ str.lower ".CSV" ∧
  load_features (single_fs "data/feats.CSV" (TextFile "a,b")) "data/feats.CSV" =
    Raise (ValueError "Features path extension .CSV not supported.").
Proof.
  split; [reflexivity |].
  split; [by_decide |].
  split; [discriminate |].
  apply (load_features_case_sensitive _ "data/feats.CSV" ".CSV").
  - reflexivity.
  - by_decide.
  - discriminate.
Defined.

(** ** [load_valid_atom_features]: which branch runs *)

Section AtomFeatureDispatch.
Context `{Chem}.

(** Outside the [.sdf] branch the identifier list is never looked at. *)
Lemma load_valid_atom_features_smiles_unused (fs : filesystem) (path : string)
    (smiles1 smiles2 : list string) :
  snd (os.path.splitext path) ≠ ".sdf" →
  load_valid_atom_features fs path smiles1 = load_valid_atom_features fs path smiles2.
Proof.
  intros Hext. unfold load_valid_atom_features.
  apply String.eqb_neq in Hext. rewrite Hext. reflexivity.
Qed.

(** Neither [if] matches: [features] is still unbound at [return]. *)
Lemma load_valid_atom_features_no_branch (fs : filesystem) (path : string)
    (smiles : list string) :
  snd (os.path.splitext path) ∉ atom_feature_extensions →
  load_valid_atom_features fs path smiles = Raise (UnboundLocalError "features").
Proof.
  intros Hext. unfold load_valid_atom_features.
  rewrite (bool_decide_sub_false _ _ [".pkl"; ".pckl"; ".pickle"] Hext) by by_decide.
  rewrite (eqb_false_of_not_elem _ ".sdf" _ Hext) by by_decide.
  reflexivity.
Qed.

End AtomFeatureDispatch.

(** C9. In the serialized-object branch the identifier list does not
    interfere: for a path whose extension is [.pkl], [.pckl] or [.pickle],
    two calls on the same file system return the same result (the same
    list of arrays, or the same exception) for any two identifier lists. *)
Theorem pickle_branch_ignores_smiles `{Chem} (fs : filesystem) (path : string)
    (smiles1 smiles2 : list string) :
  snd (os.path.splitext path) ∈ pickle_extensions →
  load_valid_atom_features fs path smiles1 = load_valid_atom_features fs path smiles2.
Proof.
  intros Hext. apply load_valid_atom_features_smiles_unused.
  intros Hsdf. rewrite Hsdf in Hext. revert Hext. by_decide.
Qed.

Lemma pickle_branch_ignores_smiles_atoms_pkl :
  snd (os.path.splitext "atoms.pkl") ∈ pickle_extensions ∧
  load_valid_atom_features
    (single_fs "atoms.pkl" (PickleFile (PyDataFrame atom_table_3))) "atoms.pkl" ["C"] =
  load_valid_atom_features
    (single_fs "atoms.pkl" (PickleFile (PyDataFrame atom_table_3))) "atoms.pkl" ["CCO"; "N"].
Proof.
  split; [by_decide |].
  apply (pickle_branch_ignores_smiles _ "atoms.pkl" ["C"] ["CCO"; "N"]).
  by_decide.
Defined.

(** C2, as stated, fails: for an extension that is neither a pickle one nor
    [.sdf] the call does not return anything, it raises. *)
Lemma unmatched_extension_raises :
  (snd (os.path.splitext "atoms.npy") ∉ atom_feature_extensions) ∧
  load_valid_atom_features empty_fs "atoms.npy" ["C"] = Raise (UnboundLocalError "features") ∧
  is_Ok (load_valid_atom_features empty_fs "atoms.npy" ["C"]) = false.
Proof.
  split; [by_decide |]. split; reflexivity.
Qed.

(** C2 (amended). For a path whose extension is none of [.pkl], [.pckl],
    [.pickle], [.sdf], [load_valid_atom_features] raises no [ValueError]
    about the extension and returns nothing: neither branch assigns
    [features], and the final [return features] raises
    [UnboundLocalError] for that variable. *)
Theorem unmatched_extension_unbound `{Chem} (fs : filesystem) (path : string)
    (smiles : list string) :
  snd (os.path.splitext path) ∉ atom_feature_extensions →
  load_valid_atom_features fs path smiles = Raise (UnboundLocalError "features").
Proof.
  apply load_valid_atom_features_no_branch.
Qed.

Lemma unmatched_extension_unbound_csv :
  (snd (os.path.splitext "atoms.csv") ∉ atom_feature_extensions) ∧
  load_valid_atom_features (single_fs "atoms.csv" (TextFile "a,b")) "atoms.csv" ["C"] =
    Raise (UnboundLocalError "features").
Proof.
  split; [by_decide |].
  apply (unmatched_extension_unbound _ "atoms.csv" ["C"]). by_decide.
Defined.

(** ** Saving and loading the archive *)

Lemma array_same_shape {A} (l : list (np.ndarray A)) (a : np.ndarray A) (s : list nat) :
  Forall (fun b => np.shape b = s) (a :: l) →
  np.array (a :: l) = Ok (np.mk_ndarray (length (a :: l) :: s) (concat (map np.data (a :: l)))).
Proof.
  intros Hall. unfold np.array.
  pose proof (Forall_inv Hall) as Ha. simpl in Ha.
  replace (forallb _ (a :: l)) with true; [by rewrite Ha |].
  symmetry. apply forallb_forall. intros b Hb.
  apply bool_decide_eq_true. rewrite Ha.
  rewrite Forall_forall in Hall. apply Hall. by apply list_elem_of_In.
Qed.

(** C1, as stated, fails for the empty list: the archive then holds the
    1-D array of shape [(0,)], and that is what is loaded. *)
Lemma roundtrip_empty_list_is_1d :
  fst (save_features empty_fs "feats.npz" []) = Ok tt ∧
  load_features (snd (save_features empty_fs "feats.npz" [])) "feats.npz" =
    Ok (Array (np.mk_ndarray [0] [])) ∧
  np.ndim (np.mk_ndarray (A := py.float64) [0] []) ≠ 2.
Proof.
  split; [reflexivity |]. split; [vm_compute; reflexivity | discriminate].
Qed.

(** C1 (amended). For a non-empty list of N 1-D arrays, each of length D:
    if [save_features(path, features)] succeeds, and the archive it wrote
    ([path] itself when it ends in [.npz], [path + '.npz'] otherwise) has
    the extension [.npz], then [load_features] on that archive returns the
    2-D array of shape (N, D) whose rows are the arrays of the list, in
    order. *)
Theorem save_load_roundtrip (fs fs' : filesystem) (path : string)
    (features : list (np.ndarray py.float64)) (D : nat) :
  let file := if str.endswith path ".npz" then path else path +:+ ".npz" in
  snd (os.path.splitext file) = ".npz" →
  features ≠ [] →
  Forall (fun a => np.shape a = [D]) features →
  save_features fs path features = (Ok tt, fs') →
  load_features fs' file =
    Ok (Array (np.mk_ndarray [length features; D] (concat (map np.data features)))).
Proof.
  intros file Hext Hne Hshape.
  unfold save_features, np_savez_compressed. fold file.
  destruct (writable fs file); simpl; [| discriminate].
  destruct features as [| a l]; [done |].
  rewrite (array_same_shape l a [D] Hshape).
  intros [= <-].
  unfold load_features. rewrite Hext. simpl.
  unfold np_load, read_file. simpl.
  rewrite lookup_insert_eq. simpl.
  rewrite lookup_singleton_eq. reflexivity.
Qed.

Lemma save_load_roundtrip_two_rows :
  let features := [vec [1; 2; 3]; vec [4; 5; 6]] in
  snd (os.path.splitext "out/feats.npz") = ".npz" ∧
  features ≠ [] ∧
  Forall (fun a => np.shape a = [3]) features ∧
  save_features empty_fs "out/feats" features =
    (Ok tt, snd (save_features empty_fs "out/feats" features)) ∧
  load_features (snd (save_features empty_fs "out/feats" features)) "out/feats.npz" =
    Ok (Array (np.mk_ndarray [2; 3] (map f64 [1; 2; 3; 4; 5; 6]))).
Proof.
  intros features.
  split; [reflexivity |]. split; [discriminate |].
  split; [repeat constructor |]. split; [reflexivity |].
  apply (save_load_roundtrip empty_fs _ "out/feats" features 3).
  - reflexivity.
  - discriminate.
  - repeat constructor.
  - reflexivity.
Defined.

(** ** Delimited text *)

(** [float] raises nothing but [ValueError]. *)
Lemma float_raises_ValueError (v : string) (e : exn) :
  py.float v = Raise e → ∃ msg, e = ValueError msg.
Proof.
  unfold py.float. intros Hf.
  repeat case_match; simplify_eq; eauto.
Qed.

Lemma mapM_float_raises (row : list string) (v : string) (e : exn) :
  v ∈ row → py.float v = Raise e →
  ∃ msg, mapM py.float row = Raise (ValueError msg).
Proof.
  induction row as [| w row IH]; intros Hin Hv.
  - by apply elem_of_nil in Hin.
  - simpl. destruct (py.float w) as [x |e'] eqn:Hw.
    + apply elem_of_cons in Hin as [-> | Hin]; [congruence |].
      destruct (IH Hin Hv) as [msg Hmsg]. exists msg. simpl. by rewrite Hmsg.
    + destruct (float_raises_ValueError _ _ Hw) as [msg ->]. by exists msg.
Qed.

Lemma mapM_float_error (row : list string) (e : exn) :
  mapM py.float row = Raise e → ∃ msg, e = ValueError msg.
Proof.
  induction row as [| w row IH] in e |- *; simpl; [discriminate |].
  destruct (py.float w) eqn:Hw; simpl.
  - destruct (mapM py.float row) eqn:Hm; simpl; [discriminate |].
    intros [= <-]. by eapply IH.
  - intros [= <-]. by eapply float_raises_ValueError.
Qed.

Lemma rows_float_raises (rows : list (list string)) (row : list string) (v : string)
    (e : exn) :
  row ∈ rows → v ∈ row → py.float v = Raise e →
  ∃ msg, mapM (mapM py.float) rows = Raise (ValueError msg).
Proof.
  induction rows as [| r rows IH]; intros Hrow Hin Hv.
  - by apply elem_of_nil in Hrow.
  - simpl. destruct (mapM py.float r) as [x | e'] eqn:Hr.
    + apply elem_of_cons in Hrow as [-> | Hrow].
      * destruct (mapM_float_raises _ _ _ Hin Hv) as [msg Hmsg]. congruence.
      * destruct (IH Hrow Hin Hv) as [msg Hmsg]. exists msg. simpl. by rewrite Hmsg.
    + destruct (mapM_float_error _ _ Hr) as [msg ->]. by exists msg.
Qed.

Lemma length_snoc (s : string) (a : ascii) :
  String.length (s +:+ String a EmptyString) = S (String.length s).
Proof. induction s; simpl; congruence. Qed.

Lemma all_chars_snoc (P : ascii → bool) (s : string) (a : ascii) :
  all_chars P (s +:+ String a EmptyString) = all_chars P s && P a.
Proof.
  induction s as [| b s IH]; simpl.
  - by rewrite andb_true_r.
  - rewrite IH. by rewrite andb_assoc.
Qed.

Lemma process_chars_app (self : csv.ReaderObj) (s t : string) :
  csv.process_chars self (s +:+ t) =
  (self' ← csv.process_chars self s; csv.process_chars self' t).
Proof.
  induction s as [| a s IH] in self |- *; simpl; [done |].
  destruct (csv.parse_process_char self (Some a)); simpl; [apply IH | done].
Qed.

Lemma plain_cases (a : ascii) :
  plain a = true →
  csv.is_newline a = false ∧ Ascii.eqb a csv.quotechar = false.
Proof.
  unfold plain. intros [H1 H2]%andb_true_iff.
  by apply negb_true_iff in H1, H2.
Qed.

(** Plain text inside a record: the parser cuts at the commas. *)
Lemma process_plain (body : string) (st : csv.ParserState) (fs : list string)
    (fld : string) :
  st = csv.START_FIELD ∨ st = csv.IN_FIELD →
  all_chars plain body = true →
  (N.of_nat (String.length fld + String.length body) ≤ csv.field_limit)%N →
  ∃ st' fs' fld',
    csv.process_chars (csv.mk_reader st fs fld (N.of_nat (String.length fld))) body =
      Ok (csv.mk_reader st' fs' fld' (N.of_nat (String.length fld'))) ∧
    (st' = csv.START_FIELD ∨ st' = csv.IN_FIELD) ∧
    (fs' ++ [fld'] = fs ++ str.split_acc "," body fld)%list.
Proof.
  induction body as [| a body IH] in st, fs, fld |- *; intros Hst Hplain Hlen.
  - exists st, fs, fld. simpl. auto.
  - simpl in Hplain. apply andb_true_iff in Hplain as [Ha Hplain].
    apply plain_cases in Ha as [Hnl Hq].
    simpl in Hlen.
    assert (csv.parse_add_char (csv.mk_reader st fs fld (N.of_nat (String.length fld))) a =
            Ok (csv.mk_reader st fs (fld +:+ String a EmptyString)
                  (N.of_nat (String.length (fld +:+ String a EmptyString))))) as Hadd.
    { unfold csv.parse_add_char. simpl.
      destruct (N.leb_spec csv.field_limit (N.of_nat (String.length fld))); [lia |].
      rewrite length_snoc. do 2 f_equal. lia. }
    simpl. destruct (Ascii.eqb a ",") eqn:Hd.
    + (* a comma closes the field *)
      destruct (IH csv.START_FIELD (fs ++ [fld])%list EmptyString) as (st' & fs' & fld' & Hp & Hst' & Hf);
        [auto | done | simpl; lia |].
      exists st', fs', fld'. split; [| split; [done |]].
      * destruct Hst as [-> | ->]; unfold csv.parse_process_char; simpl;
          unfold csv.start_field; rewrite ?Hnl, ?Hq; unfold csv.delimiter; rewrite Hd; simpl;
          exact Hp.
      * rewrite Hf. by rewrite <- app_assoc.
    + (* any other character joins the field *)
      destruct (IH csv.IN_FIELD fs (fld +:+ String a EmptyString))
        as (st' & fs' & fld' & Hp & Hst' & Hf);
        [auto | done | rewrite length_snoc; lia |].
      exists st', fs', fld'. split; [| split; [done | done]].
      destruct Hst as [-> | ->]; unfold csv.parse_process_char; simpl;
        unfold csv.start_field; rewrite ?Hnl, ?Hq; unfold csv.delimiter; rewrite Hd.
      all: rewrite Hadd; simpl; exact Hp.
Qed.

Lemma remove_plain (body : string) :
  all_chars plain body = true → str.remove io.LF body = body.
Proof.
  induction body as [| a body IH]; simpl; [done |].
  intros [Ha Hb]%andb_true_iff. apply plain_cases in Ha as [Hnl _].
  unfold csv.is_newline in Hnl. apply orb_false_iff in Hnl as [-> _].
  by rewrite IH.
Qed.

Lemma remove_app (c : ascii) (s t : string) :
  str.remove c (s +:+ t) = str.remove c s +:+ str.remove c t.
Proof.
  induction s as [| a s IH]; simpl; [done |].
  destruct (Ascii.eqb a c); simpl; by rewrite IH.
Qed.

Lemma append_empty_r (s : string) : s +:+ EmptyString = s.
Proof.
  induction s as [| a s IH]; [done |].
  change (String a (s +:+ EmptyString) = String a s). by rewrite IH.
Qed.

Lemma csv_fields_body (body l : string) :
  all_chars plain body = true →
  l = body ∨ l = body +:+ String io.LF EmptyString →
  csv_fields l = match body with
                 | EmptyString => []
                 | _ => str.split "," body
                 end.
Proof.
  intros Hplain Hl. unfold csv_fields.
  replace (str.remove io.LF l) with body; [by destruct body |].
  destruct Hl as [-> | ->]; [by rewrite remove_plain |].
  rewrite remove_app, remove_plain by done. simpl. by rewrite append_empty_r.
Qed.

(** One line of plain text is one record: its comma-separated pieces. *)
Lemma process_line_plain (l : string) :
  line_ok l →
  (N.of_nat (String.length l) ≤ csv.field_limit)%N →
  csv.process_line csv.parse_reset l =
    Ok (csv.mk_reader csv.START_RECORD (csv_fields l) EmptyString 0).
Proof.
  intros (body & Hplain & Hl) Hlen.
  rewrite (csv_fields_body body l Hplain Hl).
  assert (N.of_nat (String.length body) ≤ csv.field_limit)%N as Hblen.
  { destruct Hl as [-> | ->]; [done |]. rewrite length_snoc in Hlen. lia. }
  unfold csv.process_line.
  destruct body as [| a body].
  - (* no text: an empty record *)
    destruct Hl as [-> | ->]; reflexivity.
  - assert (∃ st' fs' fld',
        csv.process_chars csv.parse_reset (String a body) =
          Ok (csv.mk_reader st' fs' fld' (N.of_nat (String.length fld'))) ∧
        (st' = csv.START_FIELD ∨ st' = csv.IN_FIELD) ∧
        (fs' ++ [fld'])%list = str.split "," (String a body))
      as (st' & fs' & fld' & Hp & Hst' & Hf).
    { destruct (process_plain (String a body) csv.START_FIELD [] EmptyString)
        as (st' & fs' & fld' & Hp & Hst' & Hf); [auto | done | done |].
      exists st', fs', fld'. split; [| done].
      rewrite <- Hp. simpl in Hplain |- *.
      apply andb_true_iff in Hplain as [Ha _]. apply plain_cases in Ha as [Hnl Hq].
      unfold csv.parse_process_char. simpl. rewrite Hnl. reflexivity. }
    destruct Hl as [-> | ->].
    + rewrite Hp. simpl. rewrite <- Hf.
      destruct Hst' as [-> | ->]; reflexivity.
    + rewrite process_chars_app, Hp. simpl. rewrite <- Hf.
      destruct Hst' as [-> | ->]; reflexivity.
Qed.

(** Plain lines, none longer than the field limit: the reader yields the
    comma-separated pieces of each line and ends normally. *)
Lemma reader_plain (lines : list string) :
  Forall line_ok lines →
  Forall (fun l => (N.of_nat (String.length l) ≤ csv.field_limit)%N) lines →
  csv.reader lines = (map csv_fields lines, None).
Proof.
  unfold csv.reader.
  induction lines as [| l lines IH]; intros Hok Hlen; [reflexivity |].
  apply Forall_cons in Hok as [Hl Hok]. apply Forall_cons in Hlen as [Hn Hlen].
  simpl. rewrite (process_line_plain l Hl Hn). simpl.
  by rewrite (IH Hok Hlen).
Qed.

Lemma universal_newlines_tame_aux (s : string) :
  (all_chars unquoted s = true → all_chars tame (io.universal_newlines s) = true) ∧
  (∀ a, all_chars unquoted (String a s) = true →
        all_chars tame (io.universal_newlines (String a s)) = true).
Proof.
  induction s as [| b s [IH1 IH2]].
  - split; [done |]. intros a. simpl. unfold unquoted, tame.
    destruct (Ascii.eqb a io.CR) eqn:Ha; simpl; [done |].
    rewrite Ha. simpl. by rewrite !andb_true_r.
  - split; [apply IH2 |]. intros a Hall.
    change (all_chars unquoted (String a (String b s)))
      with (unquoted a && all_chars unquoted (String b s)) in Hall.
    apply andb_true_iff in Hall as [Ha Hbs].
    change (io.universal_newlines (String a (String b s))) with
      (if Ascii.eqb a io.CR
       then if Ascii.eqb b io.LF then String io.LF (io.universal_newlines s)
            else String io.LF (io.universal_newlines (String b s))
       else String a (io.universal_newlines (String b s))).
    destruct (Ascii.eqb a io.CR) eqn:HaCR.
    + destruct (Ascii.eqb b io.LF).
      * simpl in Hbs. apply andb_true_iff in Hbs as [_ Hs].
        change (tame io.LF && all_chars tame (io.universal_newlines s) = true).
        by rewrite IH1.
      * change (tame io.LF && all_chars tame (io.universal_newlines (String b s)) = true).
        by rewrite IH2.
    + change (tame a && all_chars tame (io.universal_newlines (String b s)) = true).
      rewrite IH2 by done. unfold tame. rewrite HaCR. simpl.
      unfold unquoted in Ha. by rewrite Ha.
Qed.

Lemma universal_newlines_tame (s : string) :
  all_chars unquoted s = true → all_chars tame (io.universal_newlines s) = true.
Proof. apply universal_newlines_tame_aux. Qed.

Lemma readlines_acc_ok (s cur : string) :
  all_chars tame s = true → all_chars plain cur = true →
  Forall line_ok (io.readlines_acc s cur).
Proof.
  induction s as [| a s IH] in cur |- *; intros Hs Hcur.
  - simpl. destruct cur; [constructor |].
    constructor; [| constructor]. eexists. split; [exact Hcur | by left].
  - simpl in Hs. apply andb_true_iff in Hs as [Ha Hs].
    simpl. destruct (Ascii.eqb a io.LF) eqn:HLF.
    + constructor; [| by apply IH].
      exists cur. split; [done | by right].
    + apply IH; [done |]. rewrite all_chars_snoc, Hcur. simpl.
      unfold tame in Ha. apply andb_true_iff in Ha as [HCR Hq].
      unfold plain, csv.is_newline. rewrite HLF. simpl.
      by rewrite HCR, Hq.
Qed.

(** Text without quote characters: every line the file iterator yields is
    plain. *)
Lemma readlines_ok (content : string) :
  all_chars unquoted content = true →
  Forall line_ok (io.readlines (io.universal_newlines content)).
Proof.
  intros Hq. apply readlines_acc_ok; [by apply universal_newlines_tame | done].
Qed.

(** The [.csv] / [.txt] branch of [load_features], as a function of what
    the reader yields. *)
Lemma load_features_text (fs : filesystem) (path content : string) :
  snd (os.path.splitext path) ∈ [".csv"; ".txt"] →
  files fs !! path = Some (TextFile content) →
  load_features fs path =
    let '(records, err) := csv.reader (io.readlines (io.universal_newlines content)) in
    match records, err with
    | [], None => Raise StopIteration
    | [], Some e => Raise e
    | _ :: rows, _ =>
        floats ← mapM (mapM py.float) rows;
        match err with
        | Some e => Raise e
        | None => Array <$> np.array (map np.array1 floats)
        end
    end.
Proof.
  intros Hext Hfile. unfold load_features.
  assert (String.eqb (snd (os.path.splitext path)) ".npz" = false) as ->.
  { apply String.eqb_neq. intros Heq. rewrite Heq in Hext. revert Hext. by_decide. }
  assert (String.eqb (snd (os.path.splitext path)) ".npy" = false) as ->.
  { apply String.eqb_neq. intros Heq. rewrite Heq in Hext. revert Hext. by_decide. }
  rewrite (bool_decide_eq_true_2 _ Hext).
  unfold open_text, read_file. rewrite Hfile. reflexivity.
Qed.

(** C5, as stated, fails: the header that is skipped is the first record
    of [csv.reader], and a quoted field may hold a line break.  In the
    text below the header runs over two lines; the call skips both and
    returns the one data row, where the reading line by line takes the
    second line for a row and fails on it. *)
Lemma quoted_header_spans_two_lines :
  let content :=
    unlines [String csv.quotechar "a"; "b" +:+ String csv.quotechar ",c"; "1,2"] in
  load_features (single_fs "feats.csv" (TextFile content)) "feats.csv" =
    Ok (Array (np.mk_ndarray [1; 2] [f64 1; f64 2])) ∧
  (∃ msg, line_by_line content = Raise (ValueError msg)) ∧
  load_features (single_fs "feats.csv" (TextFile content)) "feats.csv" ≠
    line_by_line content.
Proof.
  intros content. split; [vm_compute; reflexivity |].
  split; [eexists; vm_compute; reflexivity |].
  vm_compute. discriminate.
Qed.

(** C5 (amended). For a [.csv] (or [.txt]) file whose text holds no quote
    character and no line longer than the field limit of [csv] (131072
    characters), [load_features] skips the first line as a header and
    parses every remaining line as comma-separated floats, one row each;
    an empty file raises [StopIteration].  A value that [float] rejects,
    in any row the reader yields, makes the call raise the [ValueError] of
    the conversion.  The file with header "a,b" and rows "1,2", "3,4"
    loads as [[1.0, 2.0], [3.0, 4.0]]. *)
Theorem load_features_csv (fs : filesystem) (path content : string) :
  snd (os.path.splitext path) ∈ [".csv"; ".txt"] →
  files fs !! path = Some (TextFile content) →
  let lines := io.readlines (io.universal_newlines content) in
  (all_chars unquoted content = true →
   Forall (fun l => (N.of_nat (String.length l) ≤ csv.field_limit)%N) lines →
   load_features fs path = line_by_line content) ∧
  (∀ header rows err row v e,
     csv.reader lines = (header :: rows, err) →
     row ∈ rows → v ∈ row → py.float v = Raise e →
     ∃ msg, load_features fs path = Raise (ValueError msg)) ∧
  load_features (single_fs "feats.csv" (TextFile (unlines ["a,b"; "1,2"; "3,4"])))
      "feats.csv" =
    Ok (Array (np.mk_ndarray [2; 2] [f64 1; f64 2; f64 3; f64 4])).
Proof.
  intros Hext Hfile lines. split; [| split].
  - intros Hq Hlen. rewrite (load_features_text fs path content Hext Hfile).
    unfold line_by_line. fold lines.
    rewrite (reader_plain lines (readlines_ok content Hq) Hlen).
    destruct lines as [| header rest]; [reflexivity |]. simpl.
    by destruct (mapM (mapM py.float) (map csv_fields rest)).
  - intros header rows err row v e Hrd Hrow Hv He.
    rewrite (load_features_text fs path content Hext Hfile).
    fold lines. rewrite Hrd.
    destruct (rows_float_raises rows row v e Hrow Hv He) as [msg Hmsg].
    exists msg. by rewrite Hmsg.
  - vm_compute. reflexivity.
Qed.

(** Signed values, exponents and blanks around a value (a tab, a no-break
    space) are read as [float] reads them; a value it rejects stops the
    call. *)
Lemma load_features_csv_example :
  let good := unlines ["x,y"; "-1,+2"; String "160" "3" +:+ "," +:+ String "009" "4e-1"] in
  let bad := unlines ["a,b"; "1,2"; "3,x"] in
  let fs := mk_fs {["good.csv" := TextFile good; "bad.txt" := TextFile bad]}
              (fun _ => true) in
  all_chars unquoted good = true ∧
  load_features fs "good.csv" =
    Ok (Array (np.mk_ndarray [2; 2]
                 [S754_finite true 4503599627370496 (-52); f64 2;
                  f64 3; S754_finite false 7205759403792794 (-54)])) ∧
  py.float "x" = Raise (ValueError "could not convert string to float: 'x'") ∧
  ∃ msg, load_features fs "bad.txt" = Raise (ValueError msg).
Proof.
  intros good bad fs.
  assert (all_chars unquoted good = true) as Hq by reflexivity.
  split; [exact Hq |]. split; [| split; [vm_compute; reflexivity |]].
  - destruct (load_features_csv fs "good.csv" good) as (Hlines & _ & _);
      [by_decide | reflexivity |].
    rewrite Hlines; [vm_compute; reflexivity | exact Hq |].
    repeat constructor; vm_compute; discriminate.
  - destruct (load_features_csv fs "bad.txt" bad) as (_ & Hvalue & _);
      [by_decide | reflexivity |].
    apply (Hvalue ["a"; "b"] [["1"; "2"]; ["3"; "x"]] None ["3"; "x"] "x"
             (ValueError "could not convert string to float: 'x'"));
      [vm_compute; reflexivity | by_decide | by_decide | vm_compute; reflexivity].
Defined.

(** ** The shape of what [load_features] returns *)

Lemma mapM_Ok_length {A B} (f : A → result B) (l : list A) (k : list B) :
  mapM f l = Ok k → length k = length l.
Proof.
  induction l as [| x l IH] in k |- *; simpl.
  - by intros [= <-].
  - destruct (f x); simpl; [| discriminate].
    destruct (mapM f l) eqn:Hm; simpl; [| discriminate].
    intros [= <-]. simpl. f_equal. by apply IH.
Qed.

Lemma mapM_Ok_Forall2 {A B} (f : A → result B) (l : list A) (k : list B) :
  mapM f l = Ok k → Forall2 (fun x y => f x = Ok y) l k.
Proof.
  induction l as [| x l IH] in k |- *; simpl.
  - intros [= <-]. constructor.
  - destruct (f x) eqn:Hx; simpl; [| discriminate].
    destruct (mapM f l) eqn:Hm; simpl; [| discriminate].
    intros [= <-]. constructor; [done | by apply IH].
Qed.

(** C4. The docstring of [load_features] promises "a 2D numpy array of
    size (num_molecules, features_size)", and the pickle branch squeezes
    each densified matrix to get one row per molecule.  With features of
    size one the squeeze removes the feature axis as well: for the pickled
    list of two sparse 1 x 1 matrices (two molecules, one feature each)
    the call returns the 1-D array [5., 0.] of shape (2,), not an array
    of shape (2, 1). *)
Lemma load_features_pickle_1d :
  load_features (single_fs "feats.pkl" (PickleFile (PySparseList unit_features)))
      "feats.pkl" =
    Ok (Array (np.mk_ndarray [2] [f64 5; S754_zero false])) ∧
  np.ndim (np.mk_ndarray [2] [f64 5; S754_zero false]) ≠ 2.
Proof.
  split; [vm_compute; reflexivity | discriminate].
Qed.

(** ** Stacking per-atom vectors *)

Section Stacking.
Context {A : Type}.
Implicit Types (c : np.ndarray A) (row : list (np.ndarray A)).

Lemma heads_at (k : nat) row :
  Forall (fun c => k < length (np.data c)) row →
  concat (map (hd []) (map (fun c => np.chunks 1 1 (drop k (np.data c))) row)) =
  omap (fun c => np.data c !! k) row.
Proof.
  induction row as [| c row IH]; intros Hall; [done |].
  apply Forall_cons in Hall as [Hc Hall]. simpl.
  destruct (lookup_lt_is_Some_2 (np.data c) k Hc) as [x Hx].
  rewrite Hx. rewrite (drop_S _ _ _ Hx). simpl.
  f_equal. by apply IH.
Qed.

Lemma zip_blocks_vectors (n k : nat) row :
  Forall (fun c => (k + n <= length (np.data c))%nat) row →
  np.zip_blocks n (map (fun c => np.chunks 1 n (drop k (np.data c))) row) =
  flat_map (fun i => omap (fun c => np.data c !! i) row) (seq k n).
Proof.
  induction n as [| n IH] in k |- *; intros Hall; [done |].
  simpl. f_equal.
  - rewrite <- (heads_at k row).
    + f_equal. rewrite !map_map. apply map_ext. intros c. done.
    + eapply Forall_impl; [exact Hall |]. simpl. intros; lia.
  - rewrite <- (IH (S k)).
    + f_equal. rewrite map_map. apply map_ext. intros c. simpl.
      by rewrite drop_drop, Nat.add_1_r.
    + eapply Forall_impl; [exact Hall |]. simpl. intros; lia.
Qed.

(** [np.stack(row, axis=1)] of vectors of one length. *)
Lemma stack_vectors (L : nat) row :
  row ≠ [] → Forall (vector L) row →
  np.stack_axis1 row = Ok (column_stack L row).
Proof.
  intros Hne Hall. destruct row as [| c row]; [done |].
  unfold np.stack_axis1.
  pose proof (Forall_inv Hall) as [Hs Hd].
  replace (forallb _ (c :: row)) with true.
  - simpl. rewrite Hs. unfold column_stack. simpl np.size_of. f_equal. f_equal.
    rewrite <- (zip_blocks_vectors L 0 (c :: row)).
    + f_equal.
    + eapply Forall_impl; [exact Hall |]. intros b [_ Hb]. simpl. lia.
  - symmetry. apply forallb_forall. intros b Hb. apply bool_decide_eq_true.
    rewrite Hs. apply list_elem_of_In in Hb.
    by destruct (proj1 (Forall_forall _ _) Hall b Hb).
Qed.

Lemma omap_lookup_length (i : nat) row :
  Forall (fun c => i < length (np.data c)) row →
  length (omap (fun c => np.data c !! i) row) = length row.
Proof.
  induction row as [| c row IH]; intros Hall; [done |].
  apply Forall_cons in Hall as [Hc Hall]. simpl.
  destruct (lookup_lt_is_Some_2 (np.data c) i Hc) as [x ->]. simpl.
  f_equal. by apply IH.
Qed.

Lemma omap_lookup_at (i j : nat) row c :
  Forall (fun c => i < length (np.data c)) row →
  row !! j = Some c →
  omap (fun c => np.data c !! i) row !! j = np.data c !! i.
Proof.
  induction row as [| b row IH] in j |- *; intros Hall Hj; [done |].
  apply Forall_cons in Hall as [Hb Hall]. simpl.
  destruct (lookup_lt_is_Some_2 (np.data b) i Hb) as [x Hx]. rewrite Hx.
  destruct j as [| j]; simpl in *.
  - by injection Hj as <-.
  - by apply IH.
Qed.

Lemma flat_map_seq_lookup {B} (f : nat → list B) (C k n i j : nat) :
  (∀ x, (k <= x < k + n)%nat → length (f x) = C) →
  i < n → j < C →
  flat_map f (seq k n) !! (i * C + j) = f (k + i) !! j.
Proof.
  induction n as [| n IH] in k, i |- *; intros Hlen Hi Hj; [lia |].
  simpl. destruct i as [| i].
  - rewrite lookup_app_l by (rewrite Hlen; lia).
    by rewrite Nat.add_0_r.
  - rewrite lookup_app_r by (rewrite Hlen; lia).
    rewrite Hlen by lia.
    replace (S i * C + j - C) with (i * C + j) by lia.
    rewrite IH; [| intros; apply Hlen; lia | lia | done].
    replace (S k + i) with (k + S i) by lia. done.
Qed.

(** Entry (i, j) of the stacked array is entry i of vector j. *)
Lemma column_stack_lookup (L i j : nat) row c :
  Forall (vector L) row → i < L → row !! j = Some c →
  np.data (column_stack L row) !! (i * length row + j) = np.data c !! i.
Proof.
  intros Hall Hi Hj. unfold column_stack. simpl.
  assert (∀ x, x < L → Forall (fun c => x < length (np.data c)) row) as Hlt.
  { intros x Hx. eapply Forall_impl; [exact Hall |]. intros b [_ Hb]. simpl. lia. }
  rewrite (flat_map_seq_lookup _ (length row) 0 L i j).
  - simpl. by apply omap_lookup_at; [apply Hlt |].
  - intros x Hx. apply omap_lookup_length, Hlt. lia.
  - done.
  - by eapply lookup_lt_Some.
Qed.

End Stacking.

Lemma mapM_zip_rows {L C R} (f : list C → result R) (idx : list L)
    (rows : list (list C)) :
  length idx = length rows →
  mapM (fun '(name, r) => f r) (zip idx rows) = mapM f rows.
Proof.
  induction idx as [| n idx IH] in rows |- *; destruct rows as [| r rows];
    simpl; try done.
  intros [= Hlen]. by rewrite (IH rows Hlen).
Qed.

Lemma mapM_stack_rows {A} (lens : list nat) (rows : list (list (np.ndarray A))) :
  rows_of_vectors lens rows →
  mapM np.stack_axis1 rows = Ok (zip_with column_stack lens rows).
Proof.
  induction 1 as [| L r lens rows [Hne Hvec] _ IH]; [done |].
  simpl. rewrite (stack_vectors L r Hne Hvec). simpl. by rewrite IH.
Qed.

Lemma frame_not_empty {C} (df : pd.DataFrame C) (r : list C) (rows : list (list C)) :
  pd.wf df → pd.values df = r :: rows → r ≠ [] → pd.is_empty df = false.
Proof.
  intros [_ Hrows] Hv Hr. unfold pd.is_empty. rewrite Hv.
  rewrite Hv in Hrows. apply Forall_inv in Hrows.
  destruct (pd.columns df); [| done]. by destruct r.
Qed.

(** [df.apply(lambda x: np.stack(x.tolist(), axis=1), axis=1).tolist()]
    on rows of vectors. *)
Lemma apply_stack_tolist {A} (df : pd.DataFrame (np.ndarray A)) (lens : list nat) :
  pd.wf df → pd.values df ≠ [] →
  rows_of_vectors lens (pd.values df) →
  (a ← pd.apply_rows (fun _ x => np.stack_axis1 x) df; pd.tolist a) =
    Ok (zip_with column_stack lens (pd.values df)).
Proof.
  intros Hwf Hne Hrows. unfold pd.apply_rows.
  destruct (pd.values df) as [| r rows] eqn:Hv; [done |].
  assert (r ≠ []) as Hr by (by inversion Hrows as [| ? ? ? ? [? _] _]).
  rewrite (frame_not_empty df r rows Hwf Hv Hr).
  rewrite (mapM_zip_rows np.stack_axis1) by (rewrite <- Hv; apply Hwf).
  by rewrite (mapM_stack_rows lens (r :: rows) Hrows).
Qed.

Section PickledAtomFeatures.
Context `{Chem}.

(** The serialized-object branch when the first cell is 1-D. *)
Lemma load_valid_atom_features_pickle_1d (fs : filesystem) (path : string)
    (smiles : list string) (df : pd.DataFrame (np.ndarray py.float64))
    (c : np.ndarray py.float64) :
  snd (os.path.splitext path) ∈ pickle_extensions →
  files fs !! path = Some (PickleFile (PyDataFrame df)) →
  pd.iloc_0_0 df = Ok c → np.ndim c = 1 →
  load_valid_atom_features fs path smiles =
    (a ← pd.apply_rows (fun _ x => np.stack_axis1 x) df; pd.tolist a).
Proof.
  intros Hext Hfile Hc Hdim. unfold load_valid_atom_features.
  rewrite (bool_decide_eq_true_2 _ Hext).
  assert (String.eqb (snd (os.path.splitext path)) ".sdf" = false) as ->.
  { apply String.eqb_neq. intros Heq. rewrite Heq in Hext. revert Hext. by_decide. }
  unfold pickle_load, read_file. rewrite Hfile. simpl. rewrite Hc. simpl.
  rewrite Hdim. simpl.
  destruct (pd.apply_rows _ df) as [a |]; simpl; [| done].
  by destruct (pd.tolist a).
Qed.

End PickledAtomFeatures.

(** C6, as stated, fails: only the first cell is inspected, and a table of
    two rows whose first cell is 1-D of length 3 can return an array that
    does not have 3 rows. *)
Lemma pickle_first_cell_does_not_fix_shapes :
  np.shape (vec [1; 2; 3]) = [3] ∧
  pd.iloc_0_0 ragged_table = Ok (vec [1; 2; 3]) ∧
  load_valid_atom_features
    (single_fs "atoms.pkl" (PickleFile (PyDataFrame ragged_table))) "atoms.pkl" [] =
    Ok [np.mk_ndarray [3; 1] [f64 1; f64 2; f64 3]; np.mk_ndarray [2; 1] [f64 4; f64 5]] ∧
  np.shape (np.mk_ndarray [2; 1] [f64 4; f64 5]) ≠ [3; length (pd.columns ragged_table)].
Proof.
  split; [reflexivity |]. split; [reflexivity |].
  split; [vm_compute; reflexivity | discriminate].
Qed.

(** C6 (amended). In the serialized-object branch, when every cell of the
    table is a 1-D block and the blocks of one row have one length, the
    blocks of each row are stacked column-wise into one 2-D array per row,
    returned in table order: the array of row k has shape
    (length of the blocks of row k, number of columns) and its entry
    (i, j) is entry i of the block in column j.  A table of 2 rows whose
    cells are all 1-D of length 3 returns 2 arrays of shape
    (3, num_columns). *)
Theorem pickle_vectors_stacked `{Chem} (fs : filesystem) (path : string)
    (smiles : list string) (df : pd.DataFrame (np.ndarray py.float64))
    (lens : list nat) :
  snd (os.path.splitext path) ∈ pickle_extensions →
  files fs !! path = Some (PickleFile (PyDataFrame df)) →
  pd.wf df →
  pd.values df ≠ [] →
  rows_of_vectors lens (pd.values df) →
  let ncols := length (pd.columns df) in
  ∃ arrays,
    load_valid_atom_features fs path smiles = Ok arrays ∧
    length arrays = length (pd.values df) ∧
    (∀ k L r, lens !! k = Some L → pd.values df !! k = Some r →
       ∃ a, arrays !! k = Some a ∧
            np.shape a = [L; ncols] ∧
            ∀ i j c, i < L → r !! j = Some c →
                     np.data a !! (i * ncols + j) = np.data c !! i) ∧
    (lens = [3; 3] →
       ∃ a1 a2, arrays = [a1; a2] ∧
                np.shape a1 = [3; ncols] ∧ np.shape a2 = [3; ncols]).
Proof.
  intros Hext Hfile Hwf Hne Hrows ncols.
  assert (∀ r, r ∈ pd.values df → length r = ncols) as Hwidth.
  { intros r Hr. destruct Hwf as [_ Hw]. by apply (proj1 (Forall_forall _ _) Hw). }
  exists (zip_with column_stack lens (pd.values df)).
  split; [| split; [| split]].
  - destruct (pd.values df) as [| r rows] eqn:Hv; [done |].
    inversion Hrows as [| L r' lens' rows' [Hr Hvec] Hrest]; subst.
    destruct r as [| c r]; [done |].
    rewrite (load_valid_atom_features_pickle_1d fs path smiles df c Hext Hfile).
    + rewrite <- Hv. apply apply_stack_tolist; [done | by rewrite Hv | by rewrite Hv].
    + unfold pd.iloc_0_0. by rewrite Hv.
    + apply Forall_inv in Hvec as [Hs _]. unfold np.ndim. by rewrite Hs.
  - rewrite length_zip_with. apply Forall2_length in Hrows. lia.
  - intros k L r HL Hr.
    exists (column_stack L r). split; [| split].
    + rewrite lookup_zip_with, HL. simpl. by rewrite Hr.
    + simpl. f_equal. f_equal. apply Hwidth. by eapply list_elem_of_lookup_2.
    + intros i j c Hi Hj.
      destruct (Forall2_lookup_lr _ _ _ _ _ _ Hrows HL Hr) as [_ Hvec].
      rewrite <- (Hwidth r) by (by eapply list_elem_of_lookup_2).
      by apply column_stack_lookup.
  - intros ->. destruct (pd.values df) as [| r1 [| r2 [| r3 rows]]] eqn:Hv;
      try (by apply Forall2_length in Hrows).
    exists (column_stack 3 r1), (column_stack 3 r2).
    split; [done |]. simpl.
    rewrite (Hwidth r1), (Hwidth r2) by (repeat constructor). done.
Qed.

Lemma pickle_vectors_stacked_atom_table :
  let fs := single_fs "atoms.pkl" (PickleFile (PyDataFrame atom_table_3)) in
  (snd (os.path.splitext "atoms.pkl") ∈ pickle_extensions) ∧
  pd.wf atom_table_3 ∧
  rows_of_vectors [3; 3] (pd.values atom_table_3) ∧
  ∃ a1 a2,
    load_valid_atom_features fs "atoms.pkl" [] = Ok [a1; a2] ∧
    np.shape a1 = [3; 2] ∧ np.shape a2 = [3; 2].
Proof.
  intros fs.
  assert (pd.wf atom_table_3) as Hwf by (split; [done | repeat constructor]).
  assert (rows_of_vectors [3; 3] (pd.values atom_table_3)) as Hrows.
  { repeat constructor; discriminate. }
  split; [by_decide |]. split; [exact Hwf |]. split; [exact Hrows |].
  destruct (pickle_vectors_stacked fs "atoms.pkl" [] atom_table_3 [3; 3])
    as (arrays & Hload & _ & _ & Hshape); [by_decide | reflexivity | done | done | done |].
  destruct (Hshape eq_refl) as (a1 & a2 & -> & H1 & H2).
  by exists a1, a2.
Defined.


(** ** The structured-data-file branch *)

Section StructuredData.
Context `{Chem}.

(** The [.sdf] branch, from the reindexing on. *)
Lemma load_valid_atom_features_sdf (fs : filesystem) (path content : string)
    (smiles : list string) (t sel : pd.DataFrame pd.scalar) :
  snd (os.path.splitext path) = ".sdf" →
  files fs !! path = Some (SdfFile content t) →
  descriptor_columns t = Ok sel →
  load_valid_atom_features fs path smiles =
    if pd.isnull_any_any (pd.reindex smiles sel) then
      Raise (ValueError "Invalid custom atomic descriptors file, Nan found in data")
    else
      features_df ← pd.applymap parse_cell (pd.reindex smiles sel);
      num_atoms ← num_atoms_dict (pd.index features_df) ∅;
      features_df ← pd.apply_rows_frame (truncate_arrays num_atoms) features_df;
      a ← pd.apply_rows (fun _ x => np.stack_axis1 x) features_df;
      pd.tolist a.
Proof.
  intros Hext Hfile Hsel. unfold load_valid_atom_features. rewrite Hext. simpl.
  unfold LoadSDF, read_file. rewrite Hfile. simpl.
  unfold descriptor_columns in Hsel.
  destruct (pd.drop_columns ["ID"; "ROMol"] t) as [t1 |]; simpl in *; [| done].
  destruct (pd.set_index "SMILES" t1) as [t2 |]; simpl in *; [| done].
  destruct (pd.iloc_0 (pd.drop_duplicated t2)) as [first |]; simpl in *; [| done].
  injection Hsel as ->.
  destruct (pd.isnull_any_any (pd.reindex smiles sel)); [done |].
  destruct (pd.applymap parse_cell (pd.reindex smiles sel)) as [df |]; simpl; [| done].
  destruct (num_atoms_dict (pd.index df) ∅) as [d |]; simpl; [| done].
  destruct (pd.apply_rows_frame (truncate_arrays d) df) as [df' |]; simpl; [| done].
  destruct (pd.apply_rows _ df') as [a |]; simpl; [| done].
  by destruct (pd.tolist a).
Qed.

End StructuredData.

Lemma lookup_row_absent {C} (l : pd.scalar) (labels : list pd.scalar)
    (rows : list (list C)) :
  l ∉ labels → pd.lookup_row l labels rows = None.
Proof.
  induction labels as [| l' labels IH] in rows |- *; intros Hl; [done |].
  destruct rows as [| r rows]; [done |]. simpl.
  rewrite bool_decide_eq_false_2 by (intros ->; apply Hl; left).
  apply IH. intros Hin. apply Hl. by right.
Qed.

Lemma isnull_any_any_row (smiles : list string) (sel : pd.DataFrame pd.scalar)
    (s : string) :
  s ∈ smiles →
  existsb pd.isnull
    (default (map (fun _ => pd.NaN) (pd.columns sel))
       (pd.lookup_row (pd.Str s) (pd.index sel) (pd.values sel))) = true →
  pd.isnull_any_any (pd.reindex smiles sel) = true.
Proof.
  intros Hs Hrow. unfold pd.isnull_any_any, pd.reindex. simpl.
  apply existsb_exists. eexists. split; [| exact Hrow].
  apply in_map_iff. exists s. split; [done | by apply list_elem_of_In].
Qed.

Lemma missing_value_isnull (smiles : list string) (sel : pd.DataFrame pd.scalar) :
  missing_value smiles sel → pd.isnull_any_any (pd.reindex smiles sel) = true.
Proof.
  intros [s Hs Habs Hcols | s r Hs Hrow Hnan]; apply (isnull_any_any_row smiles sel s Hs).
  - rewrite (lookup_row_absent _ _ _ Habs). simpl.
    destruct (pd.columns sel); done.
  - rewrite Hrow. simpl. apply existsb_exists. exists pd.NaN.
    split; [by apply list_elem_of_In | done].
Qed.

Lemma select_elem {A} (mask : list bool) (l : list A) (x : A) :
  x ∈ pd.select mask l → x ∈ l.
Proof.
  induction mask as [| b mask IH] in l |- *; destruct l as [| y l]; simpl;
    try by intros ?%elem_of_nil.
  destruct b.
  - intros [-> | Hx]%elem_of_cons; [left | right; by apply IH].
  - intros Hx. right. by apply IH.
Qed.

(** A string label of the descriptor table is a cell of the source table:
    an identifier that occurs nowhere in the SD table has no row. *)
Lemma descriptor_columns_index (t sel : pd.DataFrame pd.scalar) (s : string) :
  descriptor_columns t = Ok sel →
  pd.Str s ∈ pd.index sel →
  ∃ r, r ∈ pd.values t ∧ pd.Str s ∈ r.
Proof.
  unfold descriptor_columns, pd.drop_columns, pd.set_index.
  case_match; simpl; [| done].
  case_match; simpl; [| done].
  destruct (pd.iloc_0 _); simpl; [| done].
  intros [= <-]. simpl. intros Hs%select_elem.
  apply list_elem_of_In, in_map_iff in Hs as (r1 & Hnth & Hr1).
  apply in_map_iff in Hr1 as (r & <- & Hr).
  exists r. split; [by apply list_elem_of_In |].
  eapply select_elem.
  destruct (nth_in_or_default n (pd.select
              (map (fun c => bool_decide (c ∉ ["ID"; "ROMol"])) (pd.columns t)) r) pd.NaN)
    as [Hin | Hdef]; [| congruence].
  rewrite Hnth in Hin. apply list_elem_of_In, Hin.
Qed.

(** C7, as stated, fails: when no column is selected as a descriptor
    column there is no cell that could be null, the check passes although
    an identifier is absent from the table, and the call ends in another
    exception. *)
Lemma absent_identifier_without_descriptor_columns :
  descriptor_columns scalar_property_table = Ok (pd.mk_frame [pd.Str "C"] [] [[]]) ∧
  (pd.Str "CC" ∉ [pd.Str "C"]) ∧
  load_valid_atom_features
    (single_fs "atoms.sdf" (SdfFile "" scalar_property_table)) "atoms.sdf" ["C"; "CC"] =
    Raise (AttributeError "'DataFrame' object has no attribute 'tolist'").
Proof.
  split; [reflexivity |]. split; [by_decide |]. vm_compute. reflexivity.
Qed.

(** C7 (amended). In the [.sdf] branch, once the table of descriptor
    columns is reindexed to the caller's identifier list: if at least one
    descriptor column was selected and the list contains an identifier
    absent from the table, or if the row of a requested identifier lacks a
    value in a selected column, the call raises [ValueError] with the
    message "Invalid custom atomic descriptors file, Nan found in data". *)
Theorem sdf_missing_value_raises `{Chem} (fs : filesystem) (path content : string)
    (smiles : list string) (t sel : pd.DataFrame pd.scalar) :
  snd (os.path.splitext path) = ".sdf" →
  files fs !! path = Some (SdfFile content t) →
  descriptor_columns t = Ok sel →
  missing_value smiles sel →
  load_valid_atom_features fs path smiles =
    Raise (ValueError "Invalid custom atomic descriptors file, Nan found in data").
Proof.
  intros Hext Hfile Hsel Hmiss.
  rewrite (load_valid_atom_features_sdf fs path content smiles t sel Hext Hfile Hsel).
  by rewrite (missing_value_isnull smiles sel Hmiss).
Qed.

Lemma sdf_missing_value_raises_absent_ethane :
  let fs := single_fs "atoms.sdf" (SdfFile "" descriptor_table) in
  snd (os.path.splitext "atoms.sdf") = ".sdf" ∧
  descriptor_columns descriptor_table = Ok descriptor_columns_of_table ∧
  missing_value ["C"; "CC"] descriptor_columns_of_table ∧
  load_valid_atom_features fs "atoms.sdf" ["C"; "CC"] =
    Raise (ValueError "Invalid custom atomic descriptors file, Nan found in data").
Proof.
  intros fs.
  assert (missing_value ["C"; "CC"] descriptor_columns_of_table) as Hmiss.
  { apply (missing_row _ _ "CC"); [by_decide | by_decide | discriminate]. }
  split; [reflexivity |]. split; [reflexivity |]. split; [exact Hmiss |].
  apply (sdf_missing_value_raises fs "atoms.sdf" "" ["C"; "CC"] descriptor_table
           descriptor_columns_of_table); [reflexivity | reflexivity | reflexivity | exact Hmiss].
Defined.

(** ** Frames: shape invariants and cell-wise maps *)

Lemma select_length {A B} (mask : list bool) (l : list A) (k : list B) :
  length l = length k → length (pd.select mask l) = length (pd.select mask k).
Proof.
  induction mask as [| b mask IH] in l, k |- *; [done |].
  destruct l as [| x l], k as [| y k]; simpl; try done.
  intros [= Hlen]. destruct b; simpl; [f_equal |]; by apply IH.
Qed.

Lemma select_Forall {A} (P : A → Prop) (mask : list bool) (l : list A) :
  Forall P l → Forall P (pd.select mask l).
Proof.
  induction mask as [| b mask IH] in l |- *; [constructor |].
  destruct l as [| x l]; [constructor |]. simpl.
  intros [Hx Hl]%Forall_cons. destruct b; [constructor |]; auto.
Qed.

Lemma iloc_columns_wf {C} (mask : list bool) (df : pd.DataFrame C) :
  pd.wf df → pd.wf (pd.iloc_columns mask df).
Proof.
  intros [Hidx Hrows]. split; simpl; [by rewrite length_map |].
  apply Forall_forall. intros r Hr. apply list_elem_of_In, in_map_iff in Hr as (r0 & <- & Hr0).
  apply select_length, (proj1 (Forall_forall _ _) Hrows). by apply list_elem_of_In.
Qed.

Lemma drop_columns_wf {C} (labels : list string) (df df' : pd.DataFrame C) :
  pd.wf df → pd.drop_columns labels df = Ok df' → pd.wf df'.
Proof.
  intros Hwf. unfold pd.drop_columns. case_match; [| done].
  intros [= <-]. by apply iloc_columns_wf.
Qed.

Lemma set_index_wf (name : string) (df df' : pd.DataFrame pd.scalar) :
  pd.wf df → pd.set_index name df = Ok df' → pd.wf df'.
Proof.
  intros [Hidx Hrows]. unfold pd.set_index. case_match; [| done].
  intros [= <-]. split; simpl; [by rewrite !length_map |].
  apply Forall_forall. intros r Hr. apply list_elem_of_In, in_map_iff in Hr as (r0 & <- & Hr0).
  apply select_length, (proj1 (Forall_forall _ _) Hrows). by apply list_elem_of_In.
Qed.

Lemma drop_duplicated_wf {C} (df : pd.DataFrame C) :
  pd.wf df → pd.wf (pd.drop_duplicated df).
Proof.
  intros [Hidx Hrows]. split; simpl; [by apply select_length |].
  by apply select_Forall.
Qed.

Lemma descriptor_columns_wf (t sel : pd.DataFrame pd.scalar) :
  pd.wf t → descriptor_columns t = Ok sel → pd.wf sel.
Proof.
  intros Hwf. unfold descriptor_columns.
  destruct (pd.drop_columns _ t) as [t1 |] eqn:H1; simpl; [| done].
  destruct (pd.set_index _ t1) as [t2 |] eqn:H2; simpl; [| done].
  destruct (pd.iloc_0 _) as [first |]; simpl; [| done].
  intros [= <-]. apply iloc_columns_wf, drop_duplicated_wf.
  eapply set_index_wf; [| exact H2]. by eapply drop_columns_wf.
Qed.

Lemma lookup_row_elem {C} (l : pd.scalar) (labels : list pd.scalar)
    (rows : list (list C)) (r : list C) :
  pd.lookup_row l labels rows = Some r → r ∈ rows.
Proof.
  induction labels as [| l' labels IH] in rows |- *; [done |].
  destruct rows as [| r' rows]; [done |]. simpl.
  case_bool_decide.
  - intros [= <-]. left.
  - intros Hr. right. by apply IH.
Qed.

Lemma reindex_wf (smiles : list string) (sel : pd.DataFrame pd.scalar) :
  pd.wf sel → pd.wf (pd.reindex smiles sel).
Proof.
  intros [_ Hrows]. split; simpl; [by rewrite !length_map |].
  apply Forall_forall. intros r Hr. apply list_elem_of_In, in_map_iff in Hr as (s & <- & _).
  destruct (pd.lookup_row _ _ _) as [r |] eqn:Hlook; simpl.
  - apply (proj1 (Forall_forall _ _) Hrows). by eapply lookup_row_elem.
  - by rewrite length_map.
Qed.

Section Transpose.
Context {A B : Type} (R : A → B → Prop).

Lemma transpose_head_tail (n : nat) (r : list A) (rows : list (list A)) :
  length r = n →
  omap head (pd.transpose n (r :: rows)) = r ∧
  map tail (pd.transpose n (r :: rows)) = pd.transpose n rows.
Proof.
  induction n as [| n IH] in r, rows |- *; intros Hlen.
  - by destruct r.
  - destruct r as [| x r]; [done |]. injection Hlen as Hlen.
    destruct (IH r (map tail rows) Hlen) as [Hh Ht]. simpl.
    split; [f_equal; exact Hh | f_equal; exact Ht].
Qed.

(** Transposing twice gives the table back. *)
Lemma transpose_involutive (n : nat) (rows : list (list A)) :
  Forall (fun r => length r = n) rows →
  pd.transpose (length rows) (pd.transpose n rows) = rows.
Proof.
  induction rows as [| r rows IH]; intros Hall; [done |].
  apply Forall_cons in Hall as [Hr Hall]. simpl length.
  destruct (transpose_head_tail n r rows Hr) as [Hh Ht].
  change (pd.transpose (S (length rows)) ?c) with
    (omap head c :: pd.transpose (length rows) (map tail c)).
  by rewrite Hh, Ht, IH.
Qed.

Lemma transpose_Forall2 (n : nat) (rows : list (list A)) (rows' : list (list B)) :
  Forall2 (Forall2 R) rows rows' →
  Forall2 (Forall2 R) (pd.transpose n rows) (pd.transpose n rows').
Proof.
  induction n as [| n IH] in rows, rows' |- *; intros Hall; [constructor |].
  simpl. constructor.
  - induction Hall as [| r r' rows rows' Hr _ IHall]; [constructor |].
    destruct Hr; simpl; [done | by constructor].
  - apply IH. induction Hall as [| r r' rows rows' Hr _ IHall]; [constructor |].
    simpl. constructor; [| done]. by destruct Hr.
Qed.

End Transpose.

(** [applymap] on a well-formed frame: same labels, and every cell of the
    result is the image of the cell at the same place. *)
Lemma applymap_Ok {C D} (f : C → result D) (df : pd.DataFrame C) (df' : pd.DataFrame D) :
  pd.wf df → pd.applymap f df = Ok df' →
  pd.index df' = pd.index df ∧ pd.columns df' = pd.columns df ∧
  Forall2 (Forall2 (fun c x => f c = Ok x)) (pd.values df) (pd.values df').
Proof.
  intros [_ Hrows]. unfold pd.applymap.
  destruct (mapM (mapM f) _) as [cols |] eqn:Hm; simpl; [| done].
  intros [= <-]. simpl. split; [done |]. split; [done |].
  rewrite <- (transpose_involutive (length (pd.columns df)) (pd.values df) Hrows) at 1.
  apply transpose_Forall2.
  apply mapM_Ok_Forall2 in Hm.
  eapply Forall2_impl; [exact Hm |]. intros col col' Hcol.
  by apply mapM_Ok_Forall2.
Qed.

(** ** Truncation to the atom count *)

Lemma take_min_length {A} (n : nat) (l : list A) :
  take (Nat.min n (length l)) l = take n l.
Proof.
  destruct (Nat.le_gt_cases n (length l)) as [Hle | Hgt].
  - by rewrite Nat.min_l.
  - rewrite Nat.min_r by lia. by rewrite !take_ge by lia.
Qed.

(** Slicing a vector never fails, whatever its length. *)
Lemma slice_vector {A} (L n : nat) (v : np.ndarray A) :
  vector L v → np.slice_to n v = Ok (truncated n v).
Proof.
  intros [Hs Hd]. unfold np.slice_to, truncated, np.array1. rewrite Hs.
  simpl. rewrite Nat.mul_1_r, <- Hd, take_min_length, length_take. done.
Qed.

Lemma truncated_vector {A} (L n : nat) (v : np.ndarray A) :
  vector L v → vector (Nat.min n L) (truncated n v).
Proof.
  intros [_ Hd]. unfold vector, truncated. simpl. rewrite length_take, Hd. done.
Qed.

Lemma mapM_Ok_map {A B} (f : A → result B) (g : A → B) (l : list A) :
  Forall (fun x => f x = Ok (g x)) l → mapM f l = Ok (map g l).
Proof.
  induction 1 as [| x l Hx _ IH]; [done |].
  simpl. rewrite Hx. simpl. by rewrite IH.
Qed.

Lemma parse_cell_Ok `{Chem} (c : pd.scalar) (x : np.ndarray py.float64) :
  parse_cell c = Ok x → pd.isnull c = false ∧ vector (length (np.data x)) x.
Proof.
  destruct c as [| s | z |]; simpl; try done.
  destruct (mapM py.float _) as [l |]; simpl; [| done].
  by intros [= <-].
Qed.

Section AtomCounts.
Context `{Chem}.

Lemma atom_counts_lookup (smiles : list string) (counts : list nat) (k : nat)
    (s : string) (n : nat) :
  atom_counts smiles counts → smiles !! k = Some s → counts !! k = Some n →
  num_atoms_of (pd.Str s) = Ok n.
Proof.
  intros Hc Hs Hn.
  destruct (Forall2_lookup_lr _ _ _ _ _ _ Hc Hs Hn) as (m & Hm & <-).
  simpl. by rewrite Hm.
Qed.

(** The dictionary of atom counts has an entry for every row label. *)
Lemma num_atoms_dict_spec (smiles : list string) (counts : list nat)
    (d0 : gmap pd.scalar nat) :
  atom_counts smiles counts →
  ∃ d, num_atoms_dict (map pd.Str smiles) d0 = Ok d ∧
       (∀ k s n, smiles !! k = Some s → counts !! k = Some n →
                 d !! pd.Str s = Some n) ∧
       (∀ x, ¬ In x (map pd.Str smiles) → d !! x = d0 !! x).
Proof.
  intros Hc. induction Hc as [| s n smiles counts Hs Hrest IH] in d0 |- *.
  - exists d0. simpl. split; [done |]. split; [intros k s n Hk; by destruct k | done].
  - destruct Hs as (m & Hm & Hn).
    destruct (IH (<[pd.Str s := n]> d0)) as (d & Hd & Hin & Hout).
    exists d. simpl. rewrite Hm, Hn. simpl. split; [exact Hd |]. split.
    + intros [| k] s' n' Hs' Hn'; simpl in *; [| by eapply Hin].
      injection Hs' as <-. injection Hn' as <-.
      destruct (decide (s ∈ smiles)) as [Hmem | Hnot].
      * apply list_elem_of_lookup in Hmem as [k Hk].
        destruct (Forall2_lookup_l _ _ _ _ _ Hrest Hk) as (n' & Hn' & m' & Hm' & Hcnt).
        rewrite (Hin k s n' Hk Hn'). congruence.
      * rewrite Hout, lookup_insert_eq; [done |].
        intros (s' & [= ->] & Hs')%in_map_iff. by apply Hnot, list_elem_of_In.
    + intros x Hx. rewrite Hout by (intros Hx'; apply Hx; by right).
      apply lookup_insert_ne. intros <-. apply Hx. by left.
Qed.

(** Every vector of a row is cut to the atom count of the row's label. *)
Lemma truncate_row (d : gmap pd.scalar nat) (name : pd.scalar) (n : nat)
    (r : list (np.ndarray py.float64)) :
  d !! name = Some n →
  Forall (fun v => ∃ L, vector L v) r →
  truncate_arrays d name r = Ok (map (truncated n) r).
Proof.
  intros Hd Hr. unfold truncate_arrays. apply mapM_Ok_map.
  eapply Forall_impl; [exact Hr |]. intros v [L Hv]. simpl.
  rewrite Hd. by eapply slice_vector.
Qed.

Lemma truncate_rows (d : gmap pd.scalar nat) (smiles : list string) (counts : list nat)
    (rows : list (list (np.ndarray py.float64))) :
  length smiles = length rows → length counts = length rows →
  (∀ k s n, smiles !! k = Some s → counts !! k = Some n → d !! pd.Str s = Some n) →
  Forall (Forall (fun v => ∃ L, vector L v)) rows →
  mapM (fun '(name, r) => truncate_arrays d name r) (zip (map pd.Str smiles) rows) =
    Ok (zip_with (fun n r => map (truncated n) r) counts rows).
Proof.
  induction smiles as [| s smiles IH] in counts, rows |- *;
    destruct rows as [| r rows], counts as [| n counts]; simpl; try done.
  intros [= Hl1] [= Hl2] Hd [Hr Hrows]%Forall_cons.
  rewrite (truncate_row d (pd.Str s) n r (Hd 0 s n eq_refl eq_refl) Hr). simpl.
  rewrite (IH counts rows Hl1 Hl2); [done | | done].
  intros k s' n' Hs' Hn'. by apply (Hd (S k)).
Qed.

End AtomCounts.

Section TruncationPipeline.
Context `{Chem}.

(** The parsed table: one row per requested identifier, one vector per
    descriptor column. *)
Lemma parsed_table (smiles : list string) (sel : pd.DataFrame pd.scalar)
    (parsed : pd.DataFrame (np.ndarray py.float64)) :
  pd.wf sel →
  pd.applymap parse_cell (pd.reindex smiles sel) = Ok parsed →
  pd.index parsed = map pd.Str smiles ∧
  pd.columns parsed = pd.columns sel ∧
  length (pd.values parsed) = length smiles ∧
  Forall (fun r => length r = length (pd.columns sel)) (pd.values parsed) ∧
  Forall (Forall (fun v => ∃ L, vector L v)) (pd.values parsed) ∧
  pd.isnull_any_any (pd.reindex smiles sel) = false.
Proof.
  intros Hwf Hp.
  pose proof (reindex_wf smiles sel Hwf) as [_ Hrows].
  destruct (applymap_Ok _ _ _ (reindex_wf smiles sel Hwf) Hp) as (Hi & Hc & Hcells).
  split; [done |]. split; [done |].
  split; [by rewrite <- (Forall2_length _ _ _ Hcells); simpl; rewrite length_map |].
  split; [| split].
  - apply Forall_forall. intros r' Hr'.
    apply list_elem_of_lookup in Hr' as [k Hk].
    destruct (Forall2_lookup_r _ _ _ _ _ Hcells Hk) as (r & Hr & Hrr').
    rewrite <- (Forall2_length _ _ _ Hrr').
    apply (proj1 (Forall_forall _ _) Hrows). by eapply list_elem_of_lookup_2.
  - apply Forall_forall. intros r' Hr'.
    apply list_elem_of_lookup in Hr' as [k Hk].
    destruct (Forall2_lookup_r _ _ _ _ _ Hcells Hk) as (r & Hr & Hrr').
    apply Forall_forall. intros v Hv.
    apply list_elem_of_lookup in Hv as [j Hj].
    destruct (Forall2_lookup_r _ _ _ _ _ Hrr' Hj) as (c & _ & Hcv).
    eexists. by apply (parse_cell_Ok c v).
  - unfold pd.isnull_any_any.
    destruct (existsb _ _) eqn:He; [| done]. exfalso.
    apply existsb_exists in He as (r & Hr & He).
    apply existsb_exists in He as (c & Hc' & Hnull).
    apply list_elem_of_In, list_elem_of_lookup in Hr as [k Hk].
    apply list_elem_of_In, list_elem_of_lookup in Hc' as [j Hj].
    destruct (Forall2_lookup_l _ _ _ _ _ Hcells Hk) as (r' & _ & Hrr').
    destruct (Forall2_lookup_l _ _ _ _ _ Hrr' Hj) as (v & _ & Hcv).
    apply parse_cell_Ok in Hcv as [Hnn _]. congruence.
Qed.

(** From the parsed table on, the [.sdf] branch cuts every vector to the
    atom count of its row and stacks the rows. *)
Lemma truncate_then_stack (smiles : list string) (counts : list nat)
    (sel : pd.DataFrame pd.scalar) (parsed : pd.DataFrame (np.ndarray py.float64)) :
  pd.wf sel → pd.columns sel ≠ [] → smiles ≠ [] →
  pd.applymap parse_cell (pd.reindex smiles sel) = Ok parsed →
  atom_counts smiles counts →
  (num_atoms ← num_atoms_dict (pd.index parsed) ∅;
   features_df ← pd.apply_rows_frame (truncate_arrays num_atoms) parsed;
   a ← pd.apply_rows (fun _ x => np.stack_axis1 x) features_df;
   pd.tolist a) =
  mapM np.stack_axis1
    (zip_with (fun n r => map (truncated n) r) counts (pd.values parsed)).
Proof.
  intros Hwf Hcols Hsm Hp Hc.
  destruct (parsed_table smiles sel parsed Hwf Hp) as (Hi & Hcp & Hlen & _ & Hvec & _).
  pose proof (Forall2_length _ _ _ Hc) as Hlc.
  destruct (num_atoms_dict_spec smiles counts ∅ Hc) as (d & Hd & Hin & _).
  rewrite Hi, Hd. simpl.
  assert (pd.is_empty parsed = false) as Hne.
  { unfold pd.is_empty. rewrite Hcp.
    destruct (pd.values parsed); [by destruct smiles |]. by destruct (pd.columns sel). }
  unfold pd.apply_rows_frame. rewrite Hne, Hi.
  rewrite (truncate_rows d smiles counts (pd.values parsed)) by (done || lia).
  simpl. unfold pd.apply_rows, pd.is_empty. simpl. rewrite Hcp.
  destruct (zip_with _ counts (pd.values parsed)) as [| r rows] eqn:Hz.
  { exfalso. apply (f_equal length) in Hz. rewrite length_zip_with in Hz.
    simpl in Hz. destruct smiles; [done |]. simpl in *. lia. }
  destruct (pd.columns sel) as [| c cols] eqn:Hcs; [done |].
  rewrite <- Hz.
  rewrite (mapM_zip_rows np.stack_axis1)
    by (rewrite length_zip_with, length_map; lia).
  by destruct (mapM np.stack_axis1 _).
Qed.

End TruncationPipeline.

Lemma truncated_rows_of_vectors {A} (counts lens : list nat)
    (rows : list (list (np.ndarray A))) :
  length counts = length rows →
  rows_of_vectors lens rows →
  rows_of_vectors (zip_with Nat.min counts lens)
    (zip_with (fun n r => map (truncated n) r) counts rows).
Proof.
  intros Hlen Hrows. pose proof (Forall2_length _ _ _ Hrows) as Hll.
  apply Forall2_same_length_lookup_2.
  { rewrite !length_zip_with. lia. }
  intros k K r' HK Hr'.
  apply lookup_zip_with_Some in HK as (n & L & -> & Hn & HL).
  apply lookup_zip_with_Some in Hr' as (n' & r & -> & Hn' & Hr).
  assert (n' = n) as -> by congruence.
  destruct (Forall2_lookup_lr _ _ _ _ _ _ Hrows HL Hr) as [Hne Hvec].
  split; [by destruct r |].
  apply Forall_forall. intros v' Hv'.
  apply list_elem_of_In, in_map_iff in Hv' as (v & <- & Hv).
  apply truncated_vector, (proj1 (Forall_forall _ _) Hvec). by apply list_elem_of_In.
Qed.

(** C8. In the [.sdf] branch every parsed per-atom vector is cut to the
    atom count the toolkit reports for the row's identifier, and nothing
    else happens between parsing and stacking: the call equals the
    stacking of the rows of vectors [v[:n]].  When the vectors of every
    row are at least as long as the atom count n of the row, the call
    returns, for each row, the array of shape (n, columns) holding the
    first n values of each vector: the tail is dropped without an error.
    When a vector is shorter than the atom count it is left as it is and
    nothing is checked: rows whose vectors share a length L give an array
    of shape (min n L, columns). *)
Theorem sdf_vectors_truncated `{Chem} (fs : filesystem) (path content : string)
    (smiles : list string) (t sel : pd.DataFrame pd.scalar)
    (parsed : pd.DataFrame (np.ndarray py.float64)) (counts : list nat) :
  snd (os.path.splitext path) = ".sdf" →
  files fs !! path = Some (SdfFile content t) →
  pd.wf t →
  descriptor_columns t = Ok sel →
  pd.columns sel ≠ [] →
  smiles ≠ [] →
  pd.applymap parse_cell (pd.reindex smiles sel) = Ok parsed →
  atom_counts smiles counts →
  let ncols := length (pd.columns sel) in
  let cut := zip_with (fun n r => map (truncated n) r) counts (pd.values parsed) in
  load_valid_atom_features fs path smiles = mapM np.stack_axis1 cut ∧
  ((∀ k n r, counts !! k = Some n → pd.values parsed !! k = Some r →
             Forall (fun v => (n <= length (np.data v))%nat) r) →
   ∃ arrays,
     load_valid_atom_features fs path smiles = Ok arrays ∧
     ∀ k n r, counts !! k = Some n → pd.values parsed !! k = Some r →
       ∃ a, arrays !! k = Some a ∧ np.shape a = [n; ncols] ∧
            ∀ i j v, i < n → r !! j = Some v →
                     np.data a !! (i * ncols + j) = np.data v !! i) ∧
  (∀ lens, rows_of_vectors lens (pd.values parsed) →
   ∃ arrays,
     load_valid_atom_features fs path smiles = Ok arrays ∧
     ∀ k n L, counts !! k = Some n → lens !! k = Some L →
       ∃ a, arrays !! k = Some a ∧ np.shape a = [Nat.min n L; ncols]).
Proof.
  intros Hext Hfile Hwft Hsel Hcols Hsm Hp Hc ncols cut.
  pose proof (descriptor_columns_wf t sel Hwft Hsel) as Hwf.
  destruct (parsed_table smiles sel parsed Hwf Hp) as (Hi & Hcp & Hlen & Hwidth & Hvec & Hnull).
  pose proof (Forall2_length _ _ _ Hc) as Hlc.
  assert (load_valid_atom_features fs path smiles = mapM np.stack_axis1 cut) as Hload.
  { rewrite (load_valid_atom_features_sdf fs path content smiles t sel Hext Hfile Hsel).
    rewrite Hnull, Hp. simpl.
    by apply (truncate_then_stack smiles counts sel parsed). }
  assert (∀ lens, rows_of_vectors lens (pd.values parsed) →
            load_valid_atom_features fs path smiles =
              Ok (zip_with column_stack (zip_with Nat.min counts lens) cut)) as Hstack.
  { intros lens Hrows. rewrite Hload. apply mapM_stack_rows.
    apply truncated_rows_of_vectors; [lia | done]. }
  assert (∀ k r, pd.values parsed !! k = Some r → length r = ncols) as Hw.
  { intros k r Hr. apply (proj1 (Forall_forall _ _) Hwidth). by eapply list_elem_of_lookup_2. }
  split; [exact Hload |]. split.
  - intros Hlong.
    (* each vector has a length of its own: stack row by row *)
    assert (rows_of_vectors counts cut) as Hrows.
    { apply Forall2_same_length_lookup_2.
      { unfold cut. rewrite length_zip_with. lia. }
      intros k n r' Hn Hr'.
      apply lookup_zip_with_Some in Hr' as (n' & r & -> & Hn' & Hr).
      assert (n' = n) as -> by congruence.
      split.
      - pose proof (Hw k r Hr) as Hlr. destruct r; [| done].
        simpl in Hlr. unfold ncols in Hlr. by destruct (pd.columns sel).
      - apply Forall_forall. intros v' Hv'.
        apply list_elem_of_In, in_map_iff in Hv' as (v & <- & Hv).
        apply list_elem_of_In in Hv.
        pose proof (proj1 (Forall_forall _ _) (Hlong k n r Hn Hr) v Hv) as Hge.
        destruct (proj1 (Forall_forall _ _)
                    (proj1 (Forall_forall _ _) Hvec r (list_elem_of_lookup_2 _ _ _ Hr)) v Hv)
          as [L [Hs Hd]].
        simpl in Hge. replace n with (Nat.min n L) at 1 by lia.
        by apply truncated_vector. }
    exists (zip_with column_stack counts cut). split.
    { rewrite Hload. by apply mapM_stack_rows. }
    intros k n r Hn Hr.
    exists (column_stack n (map (truncated n) r)). split; [| split].
    + unfold cut. rewrite lookup_zip_with, Hn. simpl.
      rewrite lookup_zip_with, Hn. simpl. by rewrite Hr.
    + simpl. by rewrite length_map, (Hw k r Hr).
    + intros i j v Hi' Hj.
      rewrite <- (Hw k r Hr), <- (length_map (truncated n) r).
      rewrite (column_stack_lookup n i j (map (truncated n) r) (truncated n v)).
      * simpl. by apply lookup_take_lt.
      * assert (cut !! k = Some (map (truncated n) r)) as Hcut.
        { unfold cut. rewrite lookup_zip_with, Hn. simpl. by rewrite Hr. }
        by destruct (Forall2_lookup_lr _ _ _ _ _ _ Hrows Hn Hcut).
      * done.
      * change (map (truncated n) r) with (truncated n <$> r).
        rewrite list_lookup_fmap, Hj. done.
  - intros lens Hrows.
    exists (zip_with column_stack (zip_with Nat.min counts lens) cut).
    split; [by apply Hstack |].
    intros k n L Hn HL.
    pose proof (Forall2_length _ _ _ Hrows) as Hll.
    destruct (lookup_lt_is_Some_2 (pd.values parsed) k) as [r Hr].
    { rewrite <- Hll. by eapply lookup_lt_Some. }
    exists (column_stack (Nat.min n L) (map (truncated n) r)). split.
    + rewrite lookup_zip_with, lookup_zip_with, Hn. simpl. rewrite HL. simpl.
      unfold cut. rewrite lookup_zip_with, Hn. simpl. by rewrite Hr.
    + simpl. by rewrite length_map, (Hw k r Hr).
Qed.

Lemma sdf_vectors_truncated_long_and_short :
  let fs := single_fs "atoms.sdf" (SdfFile "" descriptor_table) in
  snd (os.path.splitext "atoms.sdf") = ".sdf" ∧
  pd.wf descriptor_table ∧
  descriptor_columns descriptor_table = Ok descriptor_columns_of_table ∧
  pd.applymap parse_cell (pd.reindex ["C"; "CCO"] descriptor_columns_of_table) =
    Ok parsed_descriptor_table ∧
  atom_counts ["C"; "CCO"] [1; 3] ∧
  load_valid_atom_features fs "atoms.sdf" ["C"; "CCO"] =
    Ok [np.mk_ndarray [1; 2] [f64 1; f64 4];
        np.mk_ndarray [2; 2] [f64 7; f64 9; f64 8; f64 10]].
Proof.
  intros fs.
  assert (pd.wf descriptor_table) as Hwf by (split; [done | repeat constructor]).
  assert (pd.applymap parse_cell (pd.reindex ["C"; "CCO"] descriptor_columns_of_table) =
            Ok parsed_descriptor_table) as Hparsed by (vm_compute; reflexivity).
  assert (atom_counts ["C"; "CCO"] [1; 3]) as Hcounts.
  { constructor; [by exists 1 |]. constructor; [by exists 3 | constructor]. }
  split; [reflexivity |]. split; [exact Hwf |]. split; [reflexivity |].
  split; [exact Hparsed |]. split; [exact Hcounts |].
  destruct (sdf_vectors_truncated fs "atoms.sdf" "" ["C"; "CCO"] descriptor_table
              descriptor_columns_of_table parsed_descriptor_table [1; 3])
    as (Hload & _ & _);
    [reflexivity | reflexivity | exact Hwf | reflexivity | discriminate | discriminate
    | exact Hparsed | exact Hcounts |].
  rewrite Hload. vm_compute. reflexivity.
Defined.

(** * Further properties *)

(** ** What the calls read and write *)







(** ** Missing files and missing members *)

(** X3. An [.npz] archive without a member called "features" makes
    [load_features] raise [KeyError], whatever other members it holds;
    with such a member, that member alone decides the result. *)
Theorem load_features_npz_member (fs : filesystem) (path : string)
    (members : gmap string (np.ndarray py.float64)) :
  snd (os.path.splitext path) = ".npz" →
  files fs !! path = Some (NpzFile members) →
  load_features fs path =
    match members !! "features" with
    | Some a => Ok (Array a)
    | None => Raise (KeyError "features is not a file in the archive")
    end.
Proof.
  intros Hext Hfile. unfold load_features. rewrite Hext. simpl.
  unfold np_load, read_file. rewrite Hfile. simpl.
  by destruct (members !! "features").
Qed.

Lemma load_features_npz_member_absent :
  let fs := single_fs "f.npz" (NpzFile {["feats" := vec [1; 2]]}) in
  snd (os.path.splitext "f.npz") = ".npz" ∧
  load_features fs "f.npz" = Raise (KeyError "features is not a file in the archive").
Proof.
  intros fs. split; [reflexivity |].
  rewrite (load_features_npz_member fs "f.npz" {["feats" := vec [1; 2]]});
    [vm_compute | |]; reflexivity.
Defined.



(** ** Delimited text: line ends, empty files, shapes *)

Lemma universal_newlines_no_CR (s : string) :
  all_chars no_CR s = true → io.universal_newlines s = s.
Proof.
  induction s as [| a s IH]; [done |].
  simpl. intros [Ha Hs]%andb_true_iff. unfold no_CR in Ha.
  apply negb_true_iff in Ha. rewrite Ha. by rewrite IH.
Qed.

Lemma universal_newlines_crlf (s : string) :
  all_chars no_CR s = true → io.universal_newlines (crlf s) = s.
Proof.
  induction s as [| a s IH]; [done |].
  simpl. intros [Ha Hs]%andb_true_iff. unfold no_CR in Ha.
  apply negb_true_iff in Ha.
  destruct (Ascii.eqb a io.LF) eqn:HLF.
  - apply Ascii.eqb_eq in HLF as ->.
    change (String io.LF (io.universal_newlines (crlf s)) = String io.LF s).
    by rewrite IH.
  - change (io.universal_newlines (String a (crlf s)))
      with (if Ascii.eqb a io.CR
            then match crlf s with
                 | String b s'' =>
                     if Ascii.eqb b io.LF then String io.LF (io.universal_newlines s'')
                     else String io.LF (io.universal_newlines (crlf s))
                 | EmptyString => String io.LF EmptyString
                 end
            else String a (io.universal_newlines (crlf s))).
    rewrite Ha. by rewrite IH.
Qed.

(** X5. Line ends do not matter to the [.csv]/[.txt] branch: a file
    written with CR LF line ends loads exactly as the same text written
    with LF line ends (same array, or same exception). *)
Theorem load_features_crlf (fs1 fs2 : filesystem) (path content : string) :
  snd (os.path.splitext path) ∈ [".csv"; ".txt"] →
  all_chars no_CR content = true →
  files fs1 !! path = Some (TextFile (crlf content)) →
  files fs2 !! path = Some (TextFile content) →
  load_features fs1 path = load_features fs2 path.
Proof.
  intros Hext Hcr H1 H2.
  rewrite (load_features_text fs1 path _ Hext H1).
  rewrite (load_features_text fs2 path _ Hext H2).
  by rewrite universal_newlines_crlf, universal_newlines_no_CR.
Qed.

Lemma load_features_crlf_example :
  let content := unlines ["a,b"; "1,2"; "3,4"] in
  let fs1 := single_fs "feats.csv" (TextFile (crlf content)) in
  let fs2 := single_fs "feats.csv" (TextFile content) in
  all_chars no_CR content = true ∧
  String.length (crlf content) = String.length content + 3 ∧
  load_features fs1 "feats.csv" = load_features fs2 "feats.csv".
Proof.
  intros content fs1 fs2.
  split; [reflexivity |]. split; [reflexivity |].
  apply (load_features_crlf fs1 fs2 "feats.csv" content);
    [by_decide | reflexivity | reflexivity | reflexivity].
Defined.

(** X6. A file without data rows: when the text has no quote character
    and consists of one line, the header, [load_features] returns the
    empty 1-D array of shape (0,), whatever the header holds and however
    many columns it names; a file without any line has no header to skip
    and the call raises [StopIteration]. *)
Theorem load_features_header_only (fs : filesystem) (path content : string) :
  snd (os.path.splitext path) ∈ [".csv"; ".txt"] →
  files fs !! path = Some (TextFile content) →
  let lines := io.readlines (io.universal_newlines content) in
  (lines = [] → load_features fs path = Raise StopIteration) ∧
  (∀ header,
     lines = [header] →
     all_chars unquoted content = true →
     (N.of_nat (String.length header) ≤ csv.field_limit)%N →
     load_features fs path = Ok (Array (np.mk_ndarray [0] []))).
Proof.
  intros Hext Hfile lines. split.
  - intros Hl. rewrite (load_features_text fs path content Hext Hfile).
    fold lines. by rewrite Hl.
  - intros header Hl Hq Hlen.
    rewrite (load_features_text fs path content Hext Hfile).
    pose proof (readlines_ok content Hq) as Hok. fold lines in Hok |- *.
    rewrite Hl in Hok |- *.
    rewrite (reader_plain [header] Hok) by (by constructor).
    reflexivity.
Qed.

Lemma load_features_header_only_example :
  let fs := single_fs "feats.csv" (TextFile (unlines ["id,x,y,z"])) in
  (snd (os.path.splitext "feats.csv") ∈ [".csv"; ".txt"]) ∧
  io.readlines (io.universal_newlines (unlines ["id,x,y,z"])) =
    ["id,x,y,z" +:+ String io.LF EmptyString] ∧
  load_features fs "feats.csv" = Ok (Array (np.mk_ndarray [0] [])).
Proof.
  intros fs. split; [by_decide |]. split; [reflexivity |].
  apply (proj2 (load_features_header_only fs "feats.csv" (unlines ["id,x,y,z"])
                  ltac:(by_decide) eq_refl)
           ("id,x,y,z" +:+ String io.LF EmptyString)).
  - reflexivity.
  - reflexivity.
  - vm_compute. discriminate.
Defined.

Lemma array_of_rows {B} (f : string → result B) (rows : list (list string))
    (out : list (list B)) (D : nat) :
  rows ≠ [] →
  Forall (fun r => length r = D) rows →
  mapM (mapM f) rows = Ok out →
  np.array (map np.array1 out) = Ok (np.mk_ndarray [length rows; D] (concat out)).
Proof.
  intros Hne Hlen Hout.
  assert (Forall (fun b : np.ndarray B => np.shape b = [D]) (map np.array1 out)) as Hshape.
  { apply Forall_forall. intros b Hb.
    apply list_elem_of_In, in_map_iff in Hb as (fl & <- & Hfl).
    pose proof (mapM_Ok_Forall2 _ _ _ Hout) as Hall.
    apply list_elem_of_In, list_elem_of_lookup in Hfl as [i Hi].
    destruct (Forall2_lookup_r _ _ _ _ _ Hall Hi) as (r & Hr & Hrfl).
    simpl. f_equal. rewrite (mapM_Ok_length _ _ _ Hrfl).
    eapply (proj1 (Forall_forall _ _) Hlen), list_elem_of_lookup_2, Hr. }
  pose proof (mapM_Ok_length _ _ _ Hout) as Hn.
  destruct out as [| fl out]; [by destruct rows |].
  change (map np.array1 (fl :: out)) with (np.array1 fl :: map np.array1 out) in *.
  rewrite (array_same_shape _ _ [D] Hshape). simpl.
  do 2 f_equal; [f_equal; rewrite length_map; simpl in Hn; lia |].
  f_equal. rewrite map_map. simpl. by rewrite map_id.
Qed.

(** X7. Rows and columns of a delimited text file: when the text has no
    quote character and no over-long line, and each of the N >= 1 lines
    after the first holds D comma-separated values that [float] accepts,
    [load_features] returns the array of shape (N, D) whose entries are
    those floats, line after line. *)
Theorem load_features_lines_shape (fs : filesystem) (path content header : string)
    (rest : list string) (floats : list (list py.float64)) (D : nat) :
  snd (os.path.splitext path) ∈ [".csv"; ".txt"] →
  files fs !! path = Some (TextFile content) →
  all_chars unquoted content = true →
  io.readlines (io.universal_newlines content) = header :: rest →
  Forall (fun l => (N.of_nat (String.length l) ≤ csv.field_limit)%N) (header :: rest) →
  rest ≠ [] →
  Forall (fun l => length (csv_fields l) = D) rest →
  mapM (mapM py.float) (map csv_fields rest) = Ok floats →
  load_features fs path =
    Ok (Array (np.mk_ndarray [length rest; D] (concat floats))).
Proof.
  intros Hext Hfile Hq Hlines Hlen Hne HD Hfl.
  rewrite (load_features_text fs path content Hext Hfile).
  pose proof (readlines_ok content Hq) as Hok. rewrite Hlines in Hok |- *.
  rewrite (reader_plain (header :: rest) Hok Hlen). simpl.
  rewrite Hfl. simpl.
  rewrite (array_of_rows py.float (map csv_fields rest) floats D).
  - by rewrite length_map.
  - by destruct rest.
  - apply Forall_forall. intros r Hr.
    apply list_elem_of_In, in_map_iff in Hr as (l & <- & Hl).
    apply (proj1 (Forall_forall _ _) HD). by apply list_elem_of_In.
  - done.
Qed.

Lemma load_features_lines_shape_example :
  let content := unlines ["a,b,c"; "1,2,3"; " 4 ,5e0,6."] in
  let fs := single_fs "feats.txt" (TextFile content) in
  load_features fs "feats.txt" =
    Ok (Array (np.mk_ndarray [2; 3] (map f64 [1; 2; 3; 4; 5; 6]))).
Proof.
  intros content fs.
  rewrite (load_features_lines_shape fs "feats.txt" content
             ("a,b,c" +:+ String io.LF EmptyString)
             ["1,2,3" +:+ String io.LF EmptyString; " 4 ,5e0,6." +:+ String io.LF EmptyString]
             [map f64 [1; 2; 3]; map f64 [4; 5; 6]] 3).
  - reflexivity.
  - by_decide.
  - reflexivity.
  - reflexivity.
  - reflexivity.
  - repeat constructor; vm_compute; discriminate.
  - discriminate.
  - repeat constructor.
  - vm_compute. reflexivity.
Defined.

(** ** Pickled sparse matrices *)

(** The pickle branch of [load_features]. *)
Lemma load_features_pickle (fs : filesystem) (path : string)
    (l : list sparse.spmatrix) :
  snd (os.path.splitext path) ∈ pickle_extensions →
  files fs !! path = Some (PickleFile (PySparseList l)) →
  load_features fs path =
    Array <$> np.array (map (fun feat => np.squeeze (sparse.todense feat)) l).
Proof.
  intros Hext Hfile. unfold load_features.
  assert (String.eqb (snd (os.path.splitext path)) ".npz" = false) as ->.
  { apply String.eqb_neq. intros Heq. rewrite Heq in Hext. revert Hext. by_decide. }
  assert (String.eqb (snd (os.path.splitext path)) ".npy" = false) as ->.
  { apply String.eqb_neq. intros Heq. rewrite Heq in Hext. revert Hext. by_decide. }
  rewrite bool_decide_eq_false_2
    by (intros Hin; revert Hext; apply list_elem_of_In in Hin;
        destruct Hin as [<- | [<- | []]]; by_decide).
  rewrite (bool_decide_eq_true_2 _ Hext).
  unfold pickle_load, read_file. by rewrite Hfile.
Qed.

Lemma size_of_squeeze (s : list nat) :
  np.size_of (filter (fun n => n ≠ 1) s) = np.size_of s.
Proof.
  induction s as [| n s IH]; [done |].
  destruct (decide (n = 1)) as [-> | Hn].
  - rewrite filter_cons_False by (intros Hk; by apply Hk).
    simpl. rewrite IH. lia.
  - rewrite filter_cons_True by done. simpl. by rewrite IH.
Qed.

Lemma flat_map_length_const {A B} (f : A → list B) (l : list A) (n : nat) :
  (∀ x, length (f x) = n) → length (flat_map f l) = length l * n.
Proof.
  intros Hf. induction l as [| x l IH]; [done |].
  simpl. rewrite length_app, Hf, IH. done.
Qed.

Lemma todense_wf (m : sparse.spmatrix) : np.wf (sparse.todense m).
Proof.
  unfold np.wf, sparse.todense. simpl.
  rewrite (flat_map_length_const _ _ (sparse.ncols m))
    by (intros i; by rewrite length_map, length_seq).
  rewrite length_seq. lia.
Qed.

Lemma concat_length_const {A} (ls : list (list A)) (n : nat) :
  Forall (fun l => length l = n) ls → length (concat ls) = length ls * n.
Proof.
  induction 1 as [| l ls Hl _ IH]; [done |].
  simpl. rewrite length_app, Hl, IH. done.
Qed.

(** X8. The shape of what the pickle branch of [load_features] returns:
    for a non-empty pickled list of N sparse matrices that all have shape
    (r, c), the result has shape (N,) followed by those of r and c that
    differ from 1, holds the dense entries of the matrices one matrix
    after the other (zero where the matrix stores nothing), and has as
    many entries as its shape says.  So N matrices of shape (1, D) give
    (N, D) only for D other than 1, and matrices with several rows give
    a 3-D array. *)
Theorem load_features_sparse_shape (fs : filesystem) (path : string)
    (l : list sparse.spmatrix) (r c : nat) :
  snd (os.path.splitext path) ∈ pickle_extensions →
  files fs !! path = Some (PickleFile (PySparseList l)) →
  l ≠ [] →
  Forall (fun m => sparse.nrows m = r ∧ sparse.ncols m = c) l →
  ∃ a, load_features fs path = Ok (Array a) ∧
       np.shape a = length l :: filter (fun n => n ≠ 1) [r; c] ∧
       np.data a = concat (map (fun m => np.data (sparse.todense m)) l) ∧
       np.wf a.
Proof.
  intros Hext Hfile Hne Hall.
  rewrite (load_features_pickle fs path l Hext Hfile).
  set (s := filter (fun n => n ≠ 1) [r; c]).
  assert (Forall (fun b : np.ndarray py.float64 => np.shape b = s)
            (map (fun feat => np.squeeze (sparse.todense feat)) l)) as Hshape.
  { apply Forall_forall. intros b Hb.
    apply list_elem_of_In, in_map_iff in Hb as (m & <- & Hm).
    apply list_elem_of_In in Hm.
    destruct (proj1 (Forall_forall _ _) Hall m Hm) as [Hr Hc].
    unfold np.squeeze, sparse.todense. simpl. by rewrite Hr, Hc. }
  destruct l as [| m l]; [done |].
  cbn [map] in Hshape |- *.
  rewrite (array_same_shape _ _ s Hshape).
  eexists. split; [reflexivity |].
  split; [simpl; by rewrite length_map |].
  split; [simpl; by rewrite map_map |].
  unfold np.wf. cbn [np.shape np.data].
  rewrite (concat_length_const _ (r * c)).
  - simpl length. rewrite !length_map.
    change (foldr Nat.mul 1 ?x) with (np.size_of x).
    simpl np.size_of at 1. fold (np.size_of s).
    unfold s. rewrite size_of_squeeze. simpl. lia.
  - apply Forall_forall. intros d Hd.
    apply list_elem_of_In, in_map_iff in Hd as (b & <- & Hb).
    assert (∃ m', b = np.squeeze (sparse.todense m') ∧ In m' (m :: l)) as (m' & -> & Hm').
    { destruct Hb as [<- | Hb]; [exists m; split; [done | by left] |].
      apply in_map_iff in Hb as (m' & <- & Hm'). exists m'. split; [done | by right]. }
    apply list_elem_of_In in Hm'.
    destruct (proj1 (Forall_forall _ _) Hall m' Hm') as [Hr Hc].
    simpl. rewrite <- Hr, <- Hc.
    pose proof (todense_wf m') as Hwf. unfold np.wf in Hwf. simpl in Hwf. lia.
Qed.

Lemma load_features_sparse_shape_blocks :
  let l := [sparse.mk_spmatrix 2 3 {[(0, 1) := f64 7]}; sparse.mk_spmatrix 2 3 ∅] in
  let fs := single_fs "feats.pickle" (PickleFile (PySparseList l)) in
  ∃ a, load_features fs "feats.pickle" = Ok (Array a) ∧
       np.shape a = [2; 2; 3] ∧
       np.data a !! 1 = Some (f64 7) ∧
       np.wf a.
Proof.
  intros l fs.
  destruct (load_features_sparse_shape fs "feats.pickle" l 2 3)
    as (a & Hload & Hshape & Hdata & Hwf);
    [by_decide | reflexivity | discriminate | repeat constructor |].
  exists a. split; [exact Hload |]. split; [exact Hshape |].
  split; [by rewrite Hdata | exact Hwf].
Defined.

(** ** The serialized-object branch of [load_valid_atom_features] *)

Section PickledTables.
Context `{Chem}.

(** The whole branch, once the file is known to hold a table. *)
Lemma load_valid_atom_features_pickle (fs : filesystem) (path : string)
    (smiles : list string) (df : pd.DataFrame (np.ndarray py.float64)) :
  snd (os.path.splitext path) ∈ pickle_extensions →
  files fs !! path = Some (PickleFile (PyDataFrame df)) →
  load_valid_atom_features fs path smiles =
    (c ← pd.iloc_0_0 df;
     if (np.ndim c =? 1)%nat then
       a ← pd.apply_rows (fun _ x => np.stack_axis1 x) df; pd.tolist a
     else if (np.ndim c =? 2)%nat then
       a ← pd.apply_rows (fun _ x => np.concatenate_axis1 x) df; pd.tolist a
     else
       Raise (ValueError ("Atom descriptors input " +:+ path +:+ " format not supported"))).
Proof.
  intros Hext Hfile. unfold load_valid_atom_features.
  rewrite (bool_decide_eq_true_2 _ Hext).
  assert (String.eqb (snd (os.path.splitext path)) ".sdf" = false) as ->.
  { apply String.eqb_neq. intros Heq. rewrite Heq in Hext. revert Hext. by_decide. }
  unfold pickle_load, read_file. rewrite Hfile. simpl.
  destruct (pd.iloc_0_0 df) as [c |]; simpl; [| done].
  destruct (np.ndim c =? 1)%nat.
  - destruct (pd.apply_rows _ df) as [a |]; simpl; [| done]. by destruct (pd.tolist a).
  - destruct (np.ndim c =? 2)%nat; [| done].
    destruct (pd.apply_rows _ df) as [a |]; simpl; [| done]. by destruct (pd.tolist a).
Qed.

End PickledTables.

(** What [df.apply(f, axis=1).tolist()] returns has one entry per row. *)
Lemma apply_rows_tolist_length {C R} (f : pd.scalar → list C → result R)
    (df : pd.DataFrame C) (l : list R) :
  length (pd.index df) = length (pd.values df) →
  (a ← pd.apply_rows f df; pd.tolist a) = Ok l →
  length l = length (pd.values df).
Proof.
  intros Hidx. unfold pd.apply_rows.
  destruct (pd.is_empty df); simpl; [done |].
  destruct (mapM _ _) as [out |] eqn:Hout; simpl; [| done].
  intros [= <-]. rewrite (mapM_Ok_length _ _ _ Hout), length_zip. lia.
Qed.

(** X9. Whenever the serialized-object branch returns, it returns one
    array per row of the pickled table, in either of its two modes (1-D
    or 2-D blocks): no row is dropped or merged. *)
Theorem pickle_one_array_per_row `{Chem} (fs : filesystem) (path : string)
    (smiles : list string) (df : pd.DataFrame (np.ndarray py.float64))
    (arrays : list (np.ndarray py.float64)) :
  snd (os.path.splitext path) ∈ pickle_extensions →
  files fs !! path = Some (PickleFile (PyDataFrame df)) →
  length (pd.index df) = length (pd.values df) →
  load_valid_atom_features fs path smiles = Ok arrays →
  length arrays = length (pd.values df).
Proof.
  intros Hext Hfile Hidx.
  rewrite (load_valid_atom_features_pickle fs path smiles df Hext Hfile).
  destruct (pd.iloc_0_0 df) as [c |]; simpl; [| done].
  destruct (np.ndim c =? 1)%nat; [by apply apply_rows_tolist_length |].
  destruct (np.ndim c =? 2)%nat; [by apply apply_rows_tolist_length | done].
Qed.

Lemma pickle_one_array_per_row_atom_table :
  let fs := single_fs "atoms.pkl" (PickleFile (PyDataFrame atom_table_3)) in
  ∃ arrays,
    load_valid_atom_features fs "atoms.pkl" [] = Ok arrays ∧ length arrays = 2.
Proof.
  intros fs. eexists. split; [vm_compute; reflexivity |].
  apply (pickle_one_array_per_row fs "atoms.pkl" [] atom_table_3);
    [by_decide | reflexivity | reflexivity | vm_compute; reflexivity].
Defined.

(** X10. In the serialized-object branch a first cell that is neither 1-D
    nor 2-D (a scalar cell, a 3-D block, ...) makes the call raise
    [ValueError] with the message "Atom descriptors input <path> format
    not supported", which names the path; no row is looked at. *)
Theorem pickle_unsupported_ndim `{Chem} (fs : filesystem) (path : string)
    (smiles : list string) (df : pd.DataFrame (np.ndarray py.float64))
    (c : np.ndarray py.float64) :
  snd (os.path.splitext path) ∈ pickle_extensions →
  files fs !! path = Some (PickleFile (PyDataFrame df)) →
  pd.iloc_0_0 df = Ok c →
  np.ndim c ≠ 1 → np.ndim c ≠ 2 →
  load_valid_atom_features fs path smiles =
    Raise (ValueError ("Atom descriptors input " +:+ path +:+ " format not supported")).
Proof.
  intros Hext Hfile Hc H1 H2.
  rewrite (load_valid_atom_features_pickle fs path smiles df Hext Hfile), Hc. simpl.
  apply Nat.eqb_neq in H1, H2. by rewrite H1, H2.
Qed.

Lemma pickle_unsupported_ndim_scalar_cell :
  let df := pd.mk_frame [pd.Int 0] ["x"; "y"]
              [[np.mk_ndarray [] [f64 1]; vec [1; 2]]] in
  let fs := single_fs "d/atoms.pckl" (PickleFile (PyDataFrame df)) in
  pd.iloc_0_0 df = Ok (np.mk_ndarray [] [f64 1]) ∧
  load_valid_atom_features fs "d/atoms.pckl" ["C"] =
    Raise (ValueError "Atom descriptors input d/atoms.pckl format not supported").
Proof.
  intros df fs. split; [reflexivity |].
  apply (pickle_unsupported_ndim fs "d/atoms.pckl" ["C"] df (np.mk_ndarray [] [f64 1]));
    [by_decide | reflexivity | reflexivity | discriminate | discriminate].
Defined.

(** X11. A pickled table without rows, or whose rows have no cell, makes
    the serialized-object branch raise [IndexError]: the look at the first
    cell comes before everything else. *)
Theorem pickle_empty_table `{Chem} (fs : filesystem) (path : string)
    (smiles : list string) (df : pd.DataFrame (np.ndarray py.float64)) :
  snd (os.path.splitext path) ∈ pickle_extensions →
  files fs !! path = Some (PickleFile (PyDataFrame df)) →
  pd.wf df →
  pd.values df = [] ∨ pd.columns df = [] →
  ∃ msg, load_valid_atom_features fs path smiles = Raise (IndexError msg).
Proof.
  intros Hext Hfile [_ Hw] Hempty.
  rewrite (load_valid_atom_features_pickle fs path smiles df Hext Hfile).
  unfold pd.iloc_0_0. destruct (pd.values df) as [| r rows]; [by eexists |].
  destruct Hempty as [? | Hcols]; [done |].
  apply Forall_inv in Hw. rewrite Hcols in Hw. destruct r; [by eexists | done].
Qed.

Lemma pickle_empty_table_no_rows :
  let df := pd.mk_frame [] ["charge"; "radius"] [] in
  let fs := single_fs "atoms.pickle" (PickleFile (PyDataFrame df)) in
  pd.wf df ∧
  ∃ msg, load_valid_atom_features fs "atoms.pickle" ["C"] = Raise (IndexError msg).
Proof.
  intros df fs.
  assert (pd.wf df) as Hwf by (split; [done | constructor]).
  split; [exact Hwf |].
  apply (pickle_empty_table fs "atoms.pickle" ["C"] df);
    [by_decide | reflexivity | exact Hwf | by left].
Defined.

(** *** Blocks with two axes *)

Lemma zip_blocks_chunks {A} (w : np.ndarray A → nat) (n k : nat)
    (row : list (np.ndarray A)) :
  np.zip_blocks n (map (fun b => np.chunks (w b) n (drop (k * w b) (np.data b))) row) =
  flat_map (fun i => flat_map (fun b => take (w b) (drop (i * w b) (np.data b))) row)
    (seq k n).
Proof.
  induction n as [| n IH] in k |- *; [done |].
  simpl. f_equal.
  - rewrite map_map. simpl. by rewrite flat_map_concat_map.
  - rewrite <- (IH (S k)). f_equal. rewrite map_map. apply map_ext. intros b.
    simpl. rewrite drop_drop. do 2 f_equal. lia.
Qed.

(** [np.concatenate(row, axis=1)] of 2-D blocks with [n] rows each. *)
Lemma concatenate_matrices {A} (n : nat) (row : list (np.ndarray A)) :
  row ≠ [] →
  Forall (fun c => ∃ w, np.shape c = [n; w]) row →
  np.concatenate_axis1 row = Ok (side_by_side n row).
Proof.
  intros Hne Hall. destruct row as [| a row]; [done |].
  unfold np.concatenate_axis1.
  pose proof (Forall_inv Hall) as [w0 Hs]. rewrite Hs.
  replace (forallb (fun b => bool_decide (np.ndim b = np.ndim a)) (a :: row)) with true.
  2: { symmetry. apply forallb_forall. intros b Hb. apply bool_decide_eq_true.
       apply list_elem_of_In in Hb.
       destruct (proj1 (Forall_forall _ _) Hall b Hb) as [w Hw].
       unfold np.ndim. by rewrite Hs, Hw. }
  replace (forallb _ (a :: row)) with true.
  2: { symmetry. apply forallb_forall. intros b Hb. apply bool_decide_eq_true.
       apply list_elem_of_In in Hb.
       destruct (proj1 (Forall_forall _ _) Hall b Hb) as [w Hw].
       by rewrite Hw. }
  simpl negb. cbv iota. unfold side_by_side. do 2 f_equal.
  etransitivity;
    [| exact (zip_blocks_chunks (fun b => nth 1 (np.shape b) 0) n 0 (a :: row))].
  f_equal. apply map_ext. intros b. simpl. by rewrite Nat.mul_1_r.
Qed.

Lemma mapM_concatenate_rows {A} (ns : list nat) (rows : list (list (np.ndarray A))) :
  rows_of_matrices ns rows →
  mapM np.concatenate_axis1 rows = Ok (zip_with side_by_side ns rows).
Proof.
  induction 1 as [| n r ns rows [Hne Hmat] _ IH]; [done |].
  simpl. rewrite (concatenate_matrices n r Hne Hmat). simpl. by rewrite IH.
Qed.

(** X12. In the serialized-object branch, when every cell of the table is
    a 2-D block and the blocks of one row have the same number n of rows
    (one per atom), the call returns, for each table row in order, the
    blocks joined side by side: an array with n rows and as many columns
    as the blocks have together, whose row i is row i of the first block,
    then row i of the second, and so on. *)
Theorem pickle_matrices_concatenated `{Chem} (fs : filesystem) (path : string)
    (smiles : list string) (df : pd.DataFrame (np.ndarray py.float64))
    (ns : list nat) :
  snd (os.path.splitext path) ∈ pickle_extensions →
  files fs !! path = Some (PickleFile (PyDataFrame df)) →
  pd.wf df →
  pd.values df ≠ [] →
  rows_of_matrices ns (pd.values df) →
  load_valid_atom_features fs path smiles =
    Ok (zip_with side_by_side ns (pd.values df)).
Proof.
  intros Hext Hfile Hwf Hne Hrows.
  rewrite (load_valid_atom_features_pickle fs path smiles df Hext Hfile).
  destruct (pd.values df) as [| r rows] eqn:Hv; [done |].
  assert (r ≠ [] ∧ ∃ n, Forall (fun c => ∃ w, np.shape c = [n; w]) r) as [Hr [n Hmat]].
  { inversion Hrows as [| n ? ? ? [? ?] _]; subst. eauto. }
  destruct r as [| c r]; [done |].
  unfold pd.iloc_0_0. rewrite Hv. simpl.
  apply Forall_inv in Hmat as Hc. destruct Hc as [w Hc].
  unfold np.ndim. rewrite Hc. simpl.
  unfold pd.apply_rows.
  rewrite (frame_not_empty df (c :: r) rows Hwf Hv) by done.
  rewrite Hv.
  rewrite (mapM_zip_rows np.concatenate_axis1) by (rewrite <- Hv; apply Hwf).
  by rewrite (mapM_concatenate_rows ns _ Hrows).
Qed.

Lemma pickle_matrices_concatenated_example :
  let df := pd.mk_frame [pd.Int 0] ["x"; "y"]
              [[np.mk_ndarray [2; 2] (map f64 [1; 2; 3; 4]);
                np.mk_ndarray [2; 1] (map f64 [5; 6])]] in
  let fs := single_fs "atoms.pkl" (PickleFile (PyDataFrame df)) in
  pd.wf df ∧ rows_of_matrices [2] (pd.values df) ∧
  load_valid_atom_features fs "atoms.pkl" [] =
    Ok [np.mk_ndarray [2; 3] (map f64 [1; 2; 5; 3; 4; 6])].
Proof.
  intros df fs.
  assert (pd.wf df) as Hwf by (split; [done | repeat constructor]).
  assert (rows_of_matrices [2] (pd.values df)) as Hrows.
  { constructor; [| constructor]. split; [discriminate |].
    constructor; [by exists 2 |]. constructor; [by exists 1 | constructor]. }
  split; [exact Hwf |]. split; [exact Hrows |].
  rewrite (pickle_matrices_concatenated fs "atoms.pkl" [] df [2]);
    [vm_compute; reflexivity | by_decide | reflexivity | exact Hwf | discriminate
    | exact Hrows].
Defined.

(** ** The structured-data-file branch, step by step *)

Lemma load_valid_atom_features_sdf_steps `{Chem} (fs : filesystem) (path : string)
    (smiles : list string) :
  snd (os.path.splitext path) = ".sdf" →
  load_valid_atom_features fs path smiles =
    (t ← LoadSDF fs path; sel ← descriptor_columns t; descriptors_of smiles sel).
Proof.
  intros Hext. unfold load_valid_atom_features. rewrite Hext. simpl.
  destruct (LoadSDF fs path) as [t |]; simpl; [| done].
  unfold descriptor_columns.
  destruct (pd.drop_columns ["ID"; "ROMol"] t) as [t1 |]; simpl; [| done].
  destruct (pd.set_index "SMILES" t1) as [t2 |]; simpl; [| done].
  destruct (pd.iloc_0 (pd.drop_duplicated t2)) as [first |]; simpl; [| done].
  unfold descriptors_of.
  destruct (pd.isnull_any_any _); [done |].
  destruct (pd.applymap parse_cell _) as [df |]; simpl; [| done].
  destruct (num_atoms_dict (pd.index df) ∅) as [d |]; simpl; [| done].
  destruct (pd.apply_rows_frame (truncate_arrays d) df) as [df' |]; simpl; [| done].
  destruct (pd.apply_rows _ df') as [a |]; simpl; [| done].
  by destruct (pd.tolist a).
Qed.


Lemma transpose_length {A} (n : nat) (rows : list (list A)) :
  length (pd.transpose n rows) = n.
Proof. induction n as [| n IH] in rows |- *; [done |]. simpl. by rewrite IH. Qed.

(** [applymap] keeps the labels and the number of rows. *)
Lemma applymap_frame {C D} (f : C → result D) (df : pd.DataFrame C)
    (df' : pd.DataFrame D) :
  pd.applymap f df = Ok df' →
  pd.index df' = pd.index df ∧ pd.columns df' = pd.columns df ∧
  length (pd.values df') = length (pd.values df).
Proof.
  unfold pd.applymap. destruct (mapM _ _) as [cols |]; simpl; [| done].
  intros [= <-]. simpl. by rewrite transpose_length.
Qed.

(** Lines 88 to 103 return one array per requested identifier. *)
Lemma descriptors_of_length `{Chem} (smiles : list string)
    (sel : pd.DataFrame pd.scalar) (arrays : list (np.ndarray py.float64)) :
  descriptors_of smiles sel = Ok arrays → length arrays = length smiles.
Proof.
  unfold descriptors_of. destruct (pd.isnull_any_any _); [done |].
  destruct (pd.applymap parse_cell _) as [df |] eqn:Hdf; simpl; [| done].
  apply applymap_frame in Hdf as (Hidx & _ & Hlen). simpl in Hidx, Hlen.
  rewrite length_map in Hlen.
  destruct (num_atoms_dict _ _) as [d |]; simpl; [| done].
  unfold pd.apply_rows_frame. destruct (pd.is_empty df) eqn:Hempty; simpl.
  - unfold pd.apply_rows. by rewrite Hempty.
  - destruct (mapM _ _) as [rows |] eqn:Hrows; simpl; [| done].
    apply mapM_Ok_length in Hrows. rewrite length_zip, Hidx, length_map, Hlen in Hrows.
    intros Hl. apply apply_rows_tolist_length in Hl; simpl in *.
    + lia.
    + rewrite Hidx, length_map. lia.
Qed.

(** X13. Whenever the structured-data-file branch returns, it returns
    exactly one array per requested identifier (repeated identifiers
    included), whatever the number of molecule records in the file. *)
Theorem sdf_one_array_per_identifier `{Chem} (fs : filesystem) (path : string)
    (smiles : list string) (arrays : list (np.ndarray py.float64)) :
  snd (os.path.splitext path) = ".sdf" →
  load_valid_atom_features fs path smiles = Ok arrays →
  length arrays = length smiles.
Proof.
  intros Hext. rewrite (load_valid_atom_features_sdf_steps fs path smiles Hext).
  destruct (LoadSDF fs path) as [t |]; simpl; [| done].
  destruct (descriptor_columns t) as [sel |]; simpl; [| done].
  apply descriptors_of_length.
Qed.

Lemma sdf_one_array_per_identifier_repeated :
  let fs := single_fs "atoms.sdf" (SdfFile "" descriptor_table) in
  ∃ arrays,
    load_valid_atom_features fs "atoms.sdf" ["CCO"; "C"; "CCO"] = Ok arrays ∧
    length arrays = 3.
Proof.
  intros fs. eexists. split; [vm_compute; reflexivity |].
  apply (sdf_one_array_per_identifier fs "atoms.sdf" ["CCO"; "C"; "CCO"]);
    [reflexivity | vm_compute; reflexivity].
Defined.

(** The atom counts are looked up for every identifier before any array is
    cut. *)
Lemma num_atoms_dict_unparsable `{Chem} (smiles : list string) (s : string)
    (d : gmap pd.scalar nat) :
  s ∈ smiles → MolFromSmiles s = None →
  ∃ msg, num_atoms_dict (map pd.Str smiles) d = Raise (AttributeError msg).
Proof.
  intros Hs Hnone. induction smiles as [| s' smiles IH] in d, Hs |- *.
  - by apply elem_of_nil in Hs.
  - simpl. destruct (MolFromSmiles s') as [m |] eqn:Hm; simpl; [| by eexists].
    apply elem_of_cons in Hs as [-> | Hs]; [congruence | by apply IH].
Qed.

(** X14. In the structured-data-file branch a requested identifier that
    the chemistry toolkit cannot parse makes the call fail: it never
    returns arrays.  When the descriptor values of all requested
    identifiers are present and numeric, the exception is the
    [AttributeError] of calling [GetNumAtoms] on [None]. *)
Theorem sdf_unparsable_identifier_fails `{Chem} (fs : filesystem) (path : string)
    (smiles : list string) (s : string) :
  snd (os.path.splitext path) = ".sdf" →
  s ∈ smiles → MolFromSmiles s = None →
  (∀ arrays, load_valid_atom_features fs path smiles ≠ Ok arrays) ∧
  (∀ t sel parsed,
     LoadSDF fs path = Ok t → descriptor_columns t = Ok sel →
     pd.isnull_any_any (pd.reindex smiles sel) = false →
     pd.applymap parse_cell (pd.reindex smiles sel) = Ok parsed →
     ∃ msg, load_valid_atom_features fs path smiles = Raise (AttributeError msg)).
Proof.
  intros Hext Hs Hnone.
  rewrite (load_valid_atom_features_sdf_steps fs path smiles Hext). split.
  - intros arrays. destruct (LoadSDF fs path) as [t |]; simpl; [| done].
    destruct (descriptor_columns t) as [sel |]; simpl; [| done].
    unfold descriptors_of. destruct (pd.isnull_any_any _); [done |].
    destruct (pd.applymap parse_cell _) as [df |] eqn:Hdf; simpl; [| done].
    apply applymap_frame in Hdf as (Hidx & _ & _). rewrite Hidx. simpl.
    by destruct (num_atoms_dict_unparsable smiles s ∅ Hs Hnone) as [msg ->].
  - intros t sel parsed Ht Hsel Hnull Hdf. rewrite Ht. simpl. rewrite Hsel. simpl.
    unfold descriptors_of.
    rewrite Hnull, Hdf. simpl.
    apply applymap_frame in Hdf as (Hidx & _ & _). rewrite Hidx. simpl.
    destruct (num_atoms_dict_unparsable smiles s ∅ Hs Hnone) as [msg ->].
    by exists msg.
Qed.

Lemma sdf_unparsable_identifier_fails_dangling_bond :
  let t := pd.mk_frame [pd.Int 0; pd.Int 1] ["charge"; "SMILES"; "ID"; "ROMol"]
             [[pd.Str "1,2"; pd.Str "N#"; pd.Str "x"; pd.Obj];
              [pd.Str "3,4"; pd.Str "C"; pd.Str "methane"; pd.Obj]] in
  let fs := single_fs "atoms.sdf" (SdfFile "" t) in
  ("N#" ∈ ["C"; "N#"]) ∧ MolFromSmiles "N#" = None ∧
  (∀ arrays, load_valid_atom_features fs "atoms.sdf" ["C"; "N#"] ≠ Ok arrays) ∧
  pd.isnull_any_any
    (pd.reindex ["C"; "N#"]
       (pd.mk_frame [pd.Str "N#"; pd.Str "C"] ["charge"]
          [[pd.Str "1,2"]; [pd.Str "3,4"]])) = false ∧
  ∃ msg, load_valid_atom_features fs "atoms.sdf" ["C"; "N#"] =
           Raise (AttributeError msg).
Proof.
  intros t fs.
  assert ("N#" ∈ ["C"; "N#"]) as Hin by by_decide.
  destruct (sdf_unparsable_identifier_fails fs "atoms.sdf" ["C"; "N#"] "N#")
    as [Hnever Hattr]; [reflexivity | exact Hin | reflexivity |].
  split; [exact Hin |]. split; [reflexivity |]. split; [exact Hnever |].
  split; [reflexivity |].
  apply (Hattr t
           (pd.mk_frame [pd.Str "N#"; pd.Str "C"] ["charge"]
              [[pd.Str "1,2"]; [pd.Str "3,4"]])
           (pd.mk_frame [pd.Str "C"; pd.Str "N#"] ["charge"]
              [[vec [3; 4]]; [vec [1; 2]]]));
    [reflexivity | reflexivity | reflexivity | vm_compute; reflexivity].
Defined.

(** X15. The structured-data-file branch needs the three columns [ID],
    [ROMol] and [SMILES] in the table of the file: when one of them is
    missing (in particular for a file without molecule records, whose
    table is empty) the call raises [KeyError]. *)
Theorem sdf_missing_column `{Chem} (fs : filesystem) (path : string)
    (smiles : list string) (t : pd.DataFrame pd.scalar) :
  snd (os.path.splitext path) = ".sdf" →
  LoadSDF fs path = Ok t →
  ("ID" ∉ pd.columns t) ∨ ("ROMol" ∉ pd.columns t) ∨ ("SMILES" ∉ pd.columns t) →
  ∃ msg, load_valid_atom_features fs path smiles = Raise (KeyError msg).
Proof.
  intros Hext Ht Hmiss.
  rewrite (load_valid_atom_features_sdf_steps fs path smiles Hext), Ht. simpl.
  unfold descriptor_columns, pd.drop_columns. simpl forallb.
  destruct (bool_decide ("ID" ∈ pd.columns t)) eqn:Hid; simpl; [| by eexists].
  destruct (bool_decide ("ROMol" ∈ pd.columns t)) eqn:Hmol; simpl; [| by eexists].
  apply bool_decide_eq_true in Hid, Hmol.
  destruct Hmiss as [? | [? | Hsmi]]; [done | done |].
  unfold pd.set_index. simpl pd.columns.
  assert (∀ cols, "SMILES" ∉ cols → pd.position "SMILES" cols = None) as Hpos.
  { induction cols as [| c cols IH]; [done |]. intros Hc. simpl.
    destruct (String.eqb_spec c "SMILES") as [-> | _].
    - exfalso. apply Hc. left.
    - rewrite IH; [done |]. intros Hin. apply Hc. by right. }
  rewrite Hpos; [by eexists |]. intros Hin. by apply select_elem in Hin.
Qed.

Lemma sdf_missing_column_no_record :
  let fs := single_fs "empty.sdf" (TextFile "") in
  ∃ msg, load_valid_atom_features fs "empty.sdf" ["C"] = Raise (KeyError msg).
Proof.
  intros fs.
  apply (sdf_missing_column fs "empty.sdf" ["C"] (pd.mk_frame [] [] []));
    [reflexivity | reflexivity | left; by_decide].
Defined.

(** *** Nothing to stack *)

Lemma num_atoms_dict_parsable `{Chem} (smiles : list string) (d0 : gmap pd.scalar nat) :
  Forall (fun s => is_Some (MolFromSmiles s)) smiles →
  ∃ d, num_atoms_dict (map pd.Str smiles) d0 = Ok d.
Proof.
  intros Hall. induction Hall as [| s smiles [m Hm] _ IH] in d0 |- *; [by eexists |].
  simpl. rewrite Hm. simpl. apply IH.
Qed.

Lemma mapM_transpose_nil {C D} (f : C → result D) (n : nat) :
  mapM (mapM f) (pd.transpose n []) = Ok (pd.transpose n []).
Proof. induction n as [| n IH]; [done |]. simpl. by rewrite IH. Qed.

(** Lines 88 to 103 on a table that has no row or no column left. *)
Lemma descriptors_of_empty `{Chem} (smiles : list string)
    (sel : pd.DataFrame pd.scalar) (parsed : pd.DataFrame (np.ndarray py.float64)) :
  pd.isnull_any_any (pd.reindex smiles sel) = false →
  pd.applymap parse_cell (pd.reindex smiles sel) = Ok parsed →
  pd.is_empty parsed = true →
  Forall (fun s => is_Some (MolFromSmiles s)) smiles →
  descriptors_of smiles sel =
    Raise (AttributeError "'DataFrame' object has no attribute 'tolist'").
Proof.
  intros Hnull Hdf Hempty Hall. unfold descriptors_of. rewrite Hnull, Hdf. simpl.
  apply applymap_frame in Hdf as (Hidx & _ & _). rewrite Hidx. simpl.
  destruct (num_atoms_dict_parsable smiles ∅ Hall) as [d ->]. simpl.
  unfold pd.apply_rows_frame. rewrite Hempty. simpl.
  unfold pd.apply_rows. by rewrite Hempty.
Qed.

(** X16. In the structured-data-file branch, when no identifier is
    requested, or when no column of the file holds comma separated values
    in its first record, there is nothing to stack: with identifiers the
    toolkit can parse, the call raises [AttributeError] ('DataFrame'
    object has no attribute 'tolist') instead of returning an empty list. *)
Theorem sdf_nothing_to_stack `{Chem} (fs : filesystem) (path : string)
    (smiles : list string) (t sel : pd.DataFrame pd.scalar) :
  snd (os.path.splitext path) = ".sdf" →
  LoadSDF fs path = Ok t →
  pd.wf t →
  descriptor_columns t = Ok sel →
  smiles = [] ∨ pd.columns sel = [] →
  Forall (fun s => is_Some (MolFromSmiles s)) smiles →
  load_valid_atom_features fs path smiles =
    Raise (AttributeError "'DataFrame' object has no attribute 'tolist'").
Proof.
  intros Hext Ht Hwf Hsel Hnothing Hall.
  rewrite (load_valid_atom_features_sdf_steps fs path smiles Hext), Ht. simpl.
  rewrite Hsel. simpl.
  destruct Hnothing as [-> | Hcols].
  - eapply descriptors_of_empty; [reflexivity | | | done].
    + unfold pd.applymap. simpl pd.values. rewrite mapM_transpose_nil. reflexivity.
    + reflexivity.
  - pose proof (reindex_wf smiles sel (descriptor_columns_wf t sel Hwf Hsel)) as [_ Hrows].
    simpl pd.columns in Hrows. rewrite Hcols in Hrows.
    eapply descriptors_of_empty; [| | | done].
    + unfold pd.isnull_any_any.
      destruct (existsb _ _) eqn:Hex; [| done].
      apply existsb_exists in Hex as (r & Hr & Hnan).
      apply list_elem_of_In in Hr.
      pose proof (proj1 (Forall_forall _ _) Hrows r Hr) as Hlen.
      by destruct r.
    + unfold pd.applymap. simpl pd.columns. rewrite Hcols. reflexivity.
    + unfold pd.is_empty. simpl. rewrite Hcols. by destruct (pd.transpose _ _).
Qed.

Lemma sdf_nothing_to_stack_no_identifier :
  let fs := single_fs "atoms.sdf" (SdfFile "" descriptor_table) in
  pd.wf descriptor_table ∧
  load_valid_atom_features fs "atoms.sdf" [] =
    Raise (AttributeError "'DataFrame' object has no attribute 'tolist'").
Proof.
  intros fs.
  assert (pd.wf descriptor_table) as Hwf by (split; [done | repeat constructor]).
  split; [exact Hwf |].
  apply (sdf_nothing_to_stack fs "atoms.sdf" [] descriptor_table
           descriptor_columns_of_table);
    [reflexivity | reflexivity | exact Hwf | reflexivity | by left | constructor].
Defined.

(** *** Records that repeat a SMILES *)











(** *** One identifier at a time *)

Lemma lookup_map {A B} (f : A → B) (l : list A) (k : nat) :
  map f l !! k = f <$> l !! k.
Proof.
  induction l as [| x l IH] in k |- *; [by destruct k |]. destruct k; [done | apply IH].
Qed.

Lemma Forall2_mapM {A B} (f : A → result B) (l : list A) (k : list B) :
  Forall2 (fun x y => f x = Ok y) l k → mapM f l = Ok k.
Proof.
  induction 1 as [| x y l k Hx _ IH]; [done |]. simpl. rewrite Hx. simpl. by rewrite IH.
Qed.

Lemma mapM_zip_lookup {L C R} (g : L * C → result R) (idx : list L) (rows : list C)
    (out : list R) (k : nat) (name : L) (r : C) :
  mapM g (zip idx rows) = Ok out →
  idx !! k = Some name → rows !! k = Some r →
  ∃ o, out !! k = Some o ∧ g (name, r) = Ok o.
Proof.
  intros Hout Hname Hr. apply mapM_Ok_Forall2 in Hout.
  assert (zip idx rows !! k = Some (name, r)) as Hk.
  { apply lookup_zip_with_Some. by exists name, r. }
  destruct (Forall2_lookup_l _ _ _ _ _ Hout Hk) as (o & Ho & Hg). by exists o.
Qed.

(** [applymap] from its cells. *)
Lemma applymap_cells {C D} (f : C → result D) (df : pd.DataFrame C)
    (out : list (list D)) :
  pd.wf df →
  Forall2 (Forall2 (fun c x => f c = Ok x)) (pd.values df) out →
  pd.applymap f df = Ok (pd.mk_frame (pd.index df) (pd.columns df) out).
Proof.
  intros [_ Hrows] Hcells. unfold pd.applymap.
  pose proof (transpose_Forall2 (fun c x => f c = Ok x) (length (pd.columns df))
                _ _ Hcells) as Hcols.
  rewrite (Forall2_mapM (mapM f) _ (pd.transpose (length (pd.columns df)) out)).
  2: { eapply Forall2_impl; [exact Hcols |]. intros l k. apply Forall2_mapM. }
  simpl. do 2 f_equal.
  rewrite (Forall2_length _ _ _ Hcells). apply transpose_involutive.
  clear Hcols. induction Hcells as [| r r' rows rows' Hr _ IH]; [constructor |].
  apply Forall_cons in Hrows as [Hlen Hrows].
  constructor; [| by apply IH]. by rewrite <- (Forall2_length _ _ _ Hr).
Qed.

(** The atom count of every label is in the dictionary. *)
Lemma num_atoms_dict_lookup `{Chem} (labels : list pd.scalar)
    (d0 d : gmap pd.scalar nat) :
  num_atoms_dict labels d0 = Ok d →
  (∀ x, x ∈ labels → ∃ n, num_atoms_of x = Ok n ∧ d !! x = Some n) ∧
  (∀ x, x ∉ labels → d !! x = d0 !! x).
Proof.
  induction labels as [| y labels IH] in d0 |- *; simpl.
  - intros [= <-]. split; [by intros x ?%elem_of_nil | done].
  - destruct (num_atoms_of y) as [m |] eqn:Hy; simpl; [| done].
    intros Hd. destruct (IH _ Hd) as [Hin Hout]. split.
    + intros x Hx. destruct (decide (x ∈ labels)) as [Hmem | Hnot]; [by apply Hin |].
      apply elem_of_cons in Hx as [-> | Hx]; [| done].
      exists m. split; [done |]. by rewrite (Hout y Hnot), lookup_insert_eq.
    + intros x Hx. apply not_elem_of_cons in Hx as [Hne Hx].
      rewrite (Hout x Hx). by apply lookup_insert_ne.
Qed.

Lemma existsb_lookup {A} (p : A → bool) (l : list A) (k : nat) (x : A) :
  existsb p l = false → l !! k = Some x → p x = false.
Proof.
  intros Hex Hk. destruct (p x) eqn:Hp; [| done].
  rewrite <- Hex. symmetry. apply existsb_exists. exists x.
  split; [| done]. by apply list_elem_of_lookup_2, list_elem_of_In in Hk.
Qed.

(** Lines 88 to 103, for one of the requested identifiers alone. *)
Lemma descriptors_of_lookup `{Chem} (smiles : list string)
    (sel : pd.DataFrame pd.scalar) (arrays : list (np.ndarray py.float64))
    (k : nat) (s : string) (a : np.ndarray py.float64) :
  pd.wf sel →
  descriptors_of smiles sel = Ok arrays →
  smiles !! k = Some s → arrays !! k = Some a →
  descriptors_of [s] sel = Ok [a].
Proof.
  intros Hwf Hall Hs Ha. unfold descriptors_of in *.
  destruct (pd.isnull_any_any (pd.reindex smiles sel)) eqn:Hnull; [done |].
  destruct (pd.applymap parse_cell (pd.reindex smiles sel)) as [parsed |] eqn:Hdf;
    simpl in Hall; [| done].
  destruct (applymap_Ok _ _ _ (reindex_wf smiles sel Hwf) Hdf) as (Hidx & Hcols & Hcells).
  simpl in Hidx, Hcols, Hcells. rewrite Hidx in Hall.
  destruct (num_atoms_dict (map pd.Str smiles) ∅) as [d |] eqn:Hd; simpl in Hall; [| done].
  unfold pd.apply_rows_frame in Hall.
  destruct (pd.is_empty parsed) eqn:Hempty; simpl in Hall.
  { unfold pd.apply_rows in Hall. by rewrite Hempty in Hall. }
  destruct (mapM _ (zip (pd.index parsed) (pd.values parsed))) as [rows |] eqn:Hrows;
    simpl in Hall; [| done].
  unfold pd.apply_rows in Hall.
  destruct (pd.is_empty (pd.mk_frame _ _ rows)); simpl in Hall; [done |].
  destruct (mapM _ (zip (pd.index parsed) rows)) as [l |] eqn:Hstack;
    simpl in Hall; [| done].
  injection Hall as ->. rewrite Hidx in Hrows, Hstack.
  (* row [k] of every intermediate table *)
  set (row := default (map (fun _ => pd.NaN) (pd.columns sel))
                (pd.lookup_row (pd.Str s) (pd.index sel) (pd.values sel))) in *.
  assert (map pd.Str smiles !! k = Some (pd.Str s)) as Hlabel
    by (by rewrite lookup_map, Hs).
  assert (pd.values (pd.reindex smiles sel) !! k = Some row) as Hrow
    by (simpl; by rewrite lookup_map, Hs).
  simpl in Hrow.
  destruct (Forall2_lookup_l _ _ _ _ _ Hcells Hrow) as (cells & Hcellsk & Hparse).
  destruct (mapM_zip_lookup _ _ _ _ k _ _ Hrows Hlabel Hcellsk) as (cut & Hcutk & Hcut).
  destruct (mapM_zip_lookup _ _ _ _ k _ _ Hstack Hlabel Hcutk) as (a' & Ha' & Hstacked).
  rewrite Ha in Ha'. injection Ha' as <-.
  destruct (proj1 (num_atoms_dict_lookup _ _ _ Hd) (pd.Str s)) as (n & Hn & Hdn).
  { by apply list_elem_of_lookup_2 in Hlabel. }
  assert (pd.columns sel ≠ []) as Hne.
  { intros Hnil. unfold pd.is_empty in Hempty. rewrite Hcols, Hnil in Hempty.
    by destruct (pd.values parsed). }
  (* the same steps for [s] alone *)
  change (pd.reindex [s] sel) with (pd.mk_frame [pd.Str s] (pd.columns sel) [row]).
  unfold pd.isnull_any_any. simpl pd.values. simpl existsb.
  rewrite (existsb_lookup _ _ k row Hnull Hrow). simpl.
  rewrite (applymap_cells parse_cell _ [cells]).
  2: { split; [done |]. constructor; [| constructor].
       pose proof (reindex_wf smiles sel Hwf) as [_ Hlen].
       apply (proj1 (Forall_forall _ _) Hlen). simpl.
       by apply list_elem_of_lookup_2 in Hrow. }
  2: { constructor; [exact Hparse | constructor]. }
  simpl in Hn |- *. rewrite Hn. simpl.
  unfold pd.apply_rows_frame, pd.is_empty. simpl.
  destruct (pd.columns sel) as [| c cols] eqn:Hc; [done |].
  assert (truncate_arrays (<[pd.Str s := n]> ∅) (pd.Str s) cells = Ok cut) as ->.
  { rewrite <- Hcut. unfold truncate_arrays. by rewrite lookup_insert_eq, Hdn. }
  simpl. unfold pd.apply_rows, pd.is_empty. simpl. by rewrite Hstacked.
Qed.

(** X18. In the structured-data-file branch the array returned for an
    identifier depends on that identifier alone: when a call with a list
    of identifiers returns, the call with only the k-th identifier returns
    exactly the k-th array.  Neither the position of an identifier in the
    list nor the other identifiers change its array. *)
Theorem sdf_identifier_alone `{Chem} (fs : filesystem) (path : string)
    (smiles : list string) (t : pd.DataFrame pd.scalar)
    (arrays : list (np.ndarray py.float64)) (k : nat) (s : string)
    (a : np.ndarray py.float64) :
  snd (os.path.splitext path) = ".sdf" →
  LoadSDF fs path = Ok t →
  pd.wf t →
  load_valid_atom_features fs path smiles = Ok arrays →
  smiles !! k = Some s → arrays !! k = Some a →
  load_valid_atom_features fs path [s] = Ok [a].
Proof.
  intros Hext Ht Hwf Hall Hs Ha.
  rewrite (load_valid_atom_features_sdf_steps fs path smiles Hext), Ht in Hall.
  rewrite (load_valid_atom_features_sdf_steps fs path [s] Hext), Ht.
  simpl in Hall |- *.
  destruct (descriptor_columns t) as [sel |] eqn:Hsel; simpl in Hall |- *; [| done].
  apply (descriptors_of_lookup smiles sel arrays k s a); try done.
  by apply (descriptor_columns_wf t sel).
Qed.

Lemma sdf_identifier_alone_ethanol :
  let fs := single_fs "atoms.sdf" (SdfFile "" descriptor_table) in
  let ethanol := np.mk_ndarray [2; 2] [f64 7; f64 9; f64 8; f64 10] in
  pd.wf descriptor_table ∧
  load_valid_atom_features fs "atoms.sdf" ["C"; "CCO"] =
    Ok [np.mk_ndarray [1; 2] [f64 1; f64 4]; ethanol] ∧
  load_valid_atom_features fs "atoms.sdf" ["CCO"] = Ok [ethanol].
Proof.
  intros fs ethanol.
  assert (pd.wf descriptor_table) as Hwf by (split; [done | repeat constructor]).
  assert (load_valid_atom_features fs "atoms.sdf" ["C"; "CCO"] =
            Ok [np.mk_ndarray [1; 2] [f64 1; f64 4]; ethanol]) as Hall
    by (vm_compute; reflexivity).
  split; [exact Hwf |]. split; [exact Hall |].
  apply (sdf_identifier_alone fs "atoms.sdf" ["C"; "CCO"] descriptor_table
           [np.mk_ndarray [1; 2] [f64 1; f64 4]; ethanol] 1 "CCO" ethanol);
    [reflexivity | reflexivity | exact Hwf | exact Hall | reflexivity | reflexivity].
Defined.

(** * Worked examples *)

Example splitext_examples :
  map os.path.splitext ["data/feats.csv"; "data/.npz"; "a.b/c"; "x.tar.gz"; "...npz"] =
  [("data/feats", ".csv"); ("data/.npz", ""); ("a.b/c", ""); ("x.tar", ".gz");
   ("...npz", "")].
Proof. reflexivity. Qed.

Example float_examples :
  py.float " 2.5e3 " = Ok (S754_finite false 5497558138880000 (-41)) ∧
  py.float "0.1" = Ok (S754_finite false 7205759403792794 (-56)) ∧
  py.float "1_0" = Ok (f64 10) ∧
  py.float "-inf" = Ok (S754_infinity true) ∧
  py.float "1e400" = Ok (S754_infinity false) ∧
  is_Ok (py.float "1,5") = false ∧
  is_Ok (py.float "") = false.
Proof. vm_compute. repeat split; reflexivity. Qed.

(** A quoted field keeps its comma and its line break; an empty line is a
    record without fields. *)
Example reader_quoted :
  csv.reader (io.readlines (String csv.quotechar "a,b" +:+ String io.LF "c"
                              +:+ String csv.quotechar ",d" +:+ String io.LF ""
                              +:+ String io.LF "e")) =
  ([["a,b" +:+ String io.LF "c"; "d"]; []; ["e"]], None).
Proof. vm_compute. reflexivity. Qed.

(** A header alone gives the empty 1-D array; an empty file has no header
    to skip. *)
Example csv_header_only :
  load_features (single_fs "f.csv" (TextFile (unlines ["a,b"]))) "f.csv" =
    Ok (Array (np.mk_ndarray [0] [])) ∧
  load_features (single_fs "f.csv" (TextFile "")) "f.csv" = Raise StopIteration.
Proof. split; vm_compute; reflexivity. Qed.

(** A first cell with three axes is refused by name. *)
Example pickle_3d_refused :
  load_valid_atom_features
    (single_fs "atoms.pkl"
       (PickleFile (PyDataFrame
          (pd.mk_frame [pd.Int 0] ["x"] [[np.mk_ndarray [1; 1; 1] [f64 1]]]))))
    "atoms.pkl" [] =
  Raise (ValueError "Atom descriptors input atoms.pkl format not supported").
Proof. vm_compute. reflexivity. Qed.

(** Blocks with two axes are joined side by side. *)
Example pickle_2d_concatenated :
  load_valid_atom_features
    (single_fs "atoms.pkl"
       (PickleFile (PyDataFrame
          (pd.mk_frame [pd.Int 0] ["x"; "y"]
             [[np.mk_ndarray [2; 2] (map f64 [1; 2; 3; 4]);
               np.mk_ndarray [2; 1] (map f64 [5; 6])]]))))
    "atoms.pkl" [] =
  Ok [np.mk_ndarray [2; 3] (map f64 [1; 2; 5; 3; 4; 6])].
Proof. vm_compute. reflexivity. Qed.

(** An identifier the toolkit cannot parse: [MolFromSmiles] gives [None]. *)
Example sdf_unparsable_identifier :
  load_valid_atom_features
    (single_fs "atoms.sdf"
       (SdfFile ""
          (pd.mk_frame [pd.Int 0] ["charge"; "SMILES"; "ID"; "ROMol"]
             [[pd.Str "1,2"; pd.Str "N#"; pd.Str "x"; pd.Obj]])))
    "atoms.sdf" ["N#"] =
  Raise (AttributeError "'NoneType' object has no attribute 'GetNumAtoms'").
Proof. vm_compute. reflexivity. Qed.

(** After the cut the vectors of a row may differ in length; stacking then
    fails on the shapes. *)
Example sdf_unequal_after_cut :
  load_valid_atom_features
    (single_fs "atoms.sdf"
       (SdfFile ""
          (pd.mk_frame [pd.Int 0] ["charge"; "SMILES"; "radius"; "ID"; "ROMol"]
             [[pd.Str "1,2,3"; pd.Str "CCO"; pd.Str "4,5"; pd.Str "x"; pd.Obj]])))
    "atoms.sdf" ["CCO"] =
  Raise (ValueError "all input arrays must have the same shape").
Proof. vm_compute. reflexivity. Qed.
